(** * TradingView watchlist importer: the pair normalizers and the exporters

    A shallow embedding of [multi_exchange_pairs.py] ([SpotPairCheck.py] is the
    same program with Hungarian messages): the two exchange fetchers
    ([BinanceFetcher.fetch_pairs], [KrakenFetcher.fetch_pairs]), the
    two menus, the screens of [display_results], the files of
    [save_results] and the fetch phase of [main].

    Python values are modelled as follows.
    - [str] is [string], one [ascii] per character (asset codes, pair names
      and exchange names are ASCII); [len], [startswith], the slice [s[1:]],
      [replace], the substring test [in] and [upper] are written out below.
    - the documents the exchanges return are records whose fields are
      [option]s: [None] is a missing key, and a present value has the type
      the exchange documents for it (a string, a list of records).
    - a [dict] is an association list in insertion order with unique keys
      ([PyDict]); a [set] of strings is a [gset string].
    - an exception is a value of [exn] carried by [outcome]; the
      [try ... except Exception: return None] of both fetchers is [catch].
    - what the exchange answers (the three lines [requests.get],
      [raise_for_status], [response.json]) is an input of type [api_reply].
    - the lines typed at the prompts are a list of strings, and a prompt
      with no line left raises [EOFError].
    - the files of [save_results] are names with contents, in the order of
      writing; whether a file can be written is an input ([save_env]), and a
      file that cannot be written ends [save_results] by an exception. *)

From Stdlib Require Import String Ascii List Bool Arith Lia Permutation Sorted.
From stdpp Require Import base decidable option list gmap strings sorting pretty.

Open Scope string_scope.
Open Scope list_scope.

(** ** Python strings *)

Module PyStr.

(** [s.startswith(c)] for a one-character [c]. *)
Definition startswith (c : ascii) (s : string) : bool :=
  match s with
  | EmptyString => false
  | String c' _ => Ascii.eqb c' c
  end.

(** [len(s)]. *)
Definition len (s : string) : nat := String.length s.

(** The slice [s[1:]]: every character but the first; [""[1:]] is [""]. *)
Definition slice_from_1 (s : string) : string :=
  match s with
  | EmptyString => EmptyString
  | String _ t => t
  end.

(** [s.replace(c, '')] for a one-character [c]: every occurrence goes. *)
Fixpoint remove_char (c : ascii) (s : string) : string :=
  match s with
  | EmptyString => EmptyString
  | String c' t =>
      if Ascii.eqb c' c then remove_char c t else String c' (remove_char c t)
  end.

(** [sub in s]: [sub] occurs in [s] as a contiguous substring. *)
Fixpoint contains (sub s : string) : bool :=
  String.prefix sub s
  || match s with
     | EmptyString => false
     | String _ t => contains sub t
     end.

(** [bool(s)]: a string is truthy when it is not empty. *)
Definition truthy (s : string) : bool :=
  match s with
  | EmptyString => false
  | String _ _ => true
  end.

Definition upper_char (c : ascii) : ascii :=
  let n := nat_of_ascii c in
  if (97 <=? n)%nat && (n <=? 122)%nat then ascii_of_nat (n - 32) else c.

(** [s.upper()] on ASCII text (the exchange names). *)
Fixpoint upper (s : string) : string :=
  match s with
  | EmptyString => EmptyString
  | String c t => String (upper_char c) (upper t)
  end.

(** [x in l] for a list of strings. *)
Definition in_list (x : string) (l : list string) : bool :=
  existsb (String.eqb x) l.

End PyStr.

(** ** Python dictionaries with string keys, in insertion order *)

Module PyDict.

Definition t (V : Type) : Type := list (string * V).

Definition empty {V : Type} : t V := [].

(** [d[k]] and [d.get(k)]: the value under [k], if any. *)
Fixpoint get {V : Type} (k : string) (d : t V) : option V :=
  match d with
  | [] => None
  | (k', v) :: rest => if String.eqb k k' then Some v else get k rest
  end.

(** [d[k] = v]: an existing key keeps its place, a new key goes last. *)
Fixpoint set {V : Type} (k : string) (v : V) (d : t V) : t V :=
  match d with
  | [] => [(k, v)]
  | (k', v') :: rest =>
      if String.eqb k k' then (k, v) :: rest else (k', v') :: set k v rest
  end.

Definition keys {V : Type} (d : t V) : list string := map fst d.
Definition values {V : Type} (d : t V) : list V := map snd d.
Definition items {V : Type} (d : t V) : list (string * V) := d.

(** [d.get(k, default)]. *)
Definition get_default {V : Type} (k : string) (default : V) (d : t V) : V :=
  match get k d with
  | Some v => v
  | None => default
  end.

End PyDict.

(** ** Exceptions *)

Inductive exn : Type :=
| ConnectionError          (* requests.get could not reach the server *)
| HTTPError                (* raise_for_status on a 4xx or 5xx answer *)
| JSONDecodeError          (* response.json() on a body that is not JSON *)
| KeyError (key : string). (* d[key] on a dictionary without that key *)

Inductive outcome (A : Type) : Type :=
| Return (a : A)
| Raise (e : exn).
Arguments Return {A} a.
Arguments Raise {A} e.

(** Sequencing: an exception in the first step skips the rest. The notation
    [x ← m; k] below is stdpp's, through these two instances. *)
#[global] Instance outcome_bind : MBind outcome := fun A B k m =>
  match m with
  | Return a => k a
  | Raise e => Raise e
  end.
#[global] Instance outcome_ret : MRet outcome := fun A a => Return a.

(** [try: body except Exception: return None], for a body that itself
    returns a dictionary ([Some]) or [None]. *)
Definition catch {A : Type} (body : outcome (option A)) : option A :=
  match body with
  | Return r => r
  | Raise _ => None
  end.

(** [d[key]] on a record read from JSON whose key may be missing. *)
Definition getitem {A : Type} (key : string) (field : option A) : outcome A :=
  match field with
  | Some v => Return v
  | None => Raise (KeyError key)
  end.

(** A [for] loop whose body may raise: the first exception ends the loop. *)
Fixpoint for_each {S X : Type} (body : S -> X -> outcome S) (xs : list X) (st : S)
  : outcome S :=
  match xs with
  | [] => Return st
  | x :: rest => st' ← body st x; for_each body rest st'
  end.

(** What the exchange answered to the GET request. *)
Inductive api_reply (A : Type) : Type :=
| RequestFailed            (* no answer: DNS, refused connection, timeout *)
| BadStatus                (* an answer with a 4xx or 5xx status *)
| BadJson                  (* a 2xx answer whose body is not JSON *)
| Json (data : A).         (* a 2xx answer, parsed *)
Arguments RequestFailed {A}.
Arguments BadStatus {A}.
Arguments BadJson {A}.
Arguments Json {A} data.

(** [requests.get(url)], [response.raise_for_status()], [response.json()]. *)
Definition get_json {A : Type} (reply : api_reply A) : outcome A :=
  match reply with
  | RequestFailed => Raise ConnectionError
  | BadStatus => Raise HTTPError
  | BadJson => Raise JSONDecodeError
  | Json data => Return data
  end.

(** ** The canonical records *)

(** A pair as both fetchers store it. The last three keys exist in Kraken's
    dictionaries only. *)
Record TradingPair : Type := {
  symbol : string;
  baseAsset : string;
  quoteAsset : string;
  exchange : string;
  kraken_pair : option string;
  wsname : option string;
  altname : option string
}.

(** The dictionary a successful fetch returns. *)
Record FetchResult : Type := {
  fr_exchange : string;
  results : PyDict.t (list TradingPair);
  all_pairs : list TradingPair;
  total : nat
}.

(** The state of both fetch loops: [results] and [all_pairs]. *)
Definition fetch_state : Type := (PyDict.t (list TradingPair) * list TradingPair)%type.

(** [for asset in quote_assets: results[asset] = []]. *)
Definition init_results (quote_assets : list string) : PyDict.t (list TradingPair) :=
  fold_left (fun d asset => PyDict.set asset [] d) quote_assets PyDict.empty.

(** [results[quote].append(pair); all_pairs.append(pair)]. *)
Definition record_pair (quote : string) (pair : TradingPair) (st : fetch_state)
  : outcome fetch_state :=
  let '(res, all) := st in
  bucket ← getitem quote (PyDict.get quote res);
  Return (PyDict.set quote (bucket ++ [pair]) res, all ++ [pair]).

Definition make_result (name : string) (st : fetch_state) : FetchResult :=
  {| fr_exchange := name;
     results := fst st;
     all_pairs := snd st;
     total := length (snd st) |}.

(** ** Binance *)

Module BinanceFetcher.

Definition name : string := "Binance".

(** One entry of [data['symbols']]; [None] is a missing key. *)
Record symbol_record : Type := {
  raw_symbol : option string;
  raw_baseAsset : option string;
  raw_quoteAsset : option string;
  raw_status : option string
}.

(** The exchangeInfo document. *)
Record exchange_info : Type := {
  symbols : option (list symbol_record)
}.

(** The body of [for symbol in data['symbols']]. *)
Definition process_symbol (quote_assets : list string)
    (st : fetch_state) (s : symbol_record) : outcome fetch_state :=
  q ← getitem "quoteAsset" (raw_quoteAsset s);
  if PyStr.in_list q quote_assets then
    status ← getitem "status" (raw_status s);
    if String.eqb status "TRADING" then
      sym ← getitem "symbol" (raw_symbol s);
      base ← getitem "baseAsset" (raw_baseAsset s);
      let pair_info :=
        {| symbol := sym; baseAsset := base; quoteAsset := q;
           exchange := "Binance";
           kraken_pair := None; wsname := None; altname := None |} in
      record_pair q pair_info st
    else Return st
  else Return st.

Definition fetch_body (quote_assets : list string)
    (reply : api_reply exchange_info) : outcome (option FetchResult) :=
  data ← get_json reply;
  let st0 : fetch_state := (init_results quote_assets, []) in
  syms ← getitem "symbols" (symbols data);
  st ← for_each (process_symbol quote_assets) syms st0;
  Return (Some (make_result "Binance" st)).

Definition fetch_pairs (quote_assets : list string)
    (reply : api_reply exchange_info) : option FetchResult :=
  catch (fetch_body quote_assets reply).

End BinanceFetcher.

(** ** Kraken *)

Module KrakenFetcher.

Definition name : string := "Kraken".

(** [self.asset_map]: canonical quote code to the codes Kraken uses. *)
Definition asset_map : PyDict.t (list string) :=
  [ ("USD", ["ZUSD"; "USD"]);
    ("USDT", ["USDT"]);
    ("USDC", ["USDC"]);
    ("EUR", ["ZEUR"; "EUR"]);
    ("GBP", ["ZGBP"; "GBP"]);
    ("JPY", ["ZJPY"; "JPY"]);
    ("CAD", ["ZCAD"; "CAD"]);
    ("AUD", ["ZAUD"; "AUD"]);
    ("CHF", ["CHF"]);
    ("DAI", ["DAI"]);
    ("BUSD", ["BUSD"]) ].

(** One value of [data['result']]; [None] is a missing key. *)
Record pair_info : Type := {
  raw_base : option string;
  raw_quote : option string;
  raw_altname : option string;
  raw_wsname : option string
}.

(** The AssetPairs document. *)
Record asset_pairs : Type := {
  error : option (list string);
  result : option (PyDict.t pair_info)
}.

(** [self.asset_map[asset] if asset in self.asset_map else [asset]]. *)
Definition kraken_names_of (asset : string) : list string :=
  match PyDict.get asset asset_map with
  | Some names => names
  | None => [asset]
  end.

(** [for asset in quote_assets: search_assets[asset] = ...]. *)
Definition build_search_assets (quote_assets : list string)
  : PyDict.t (list string) :=
  fold_left (fun d asset => PyDict.set asset (kraken_names_of asset) d)
            quote_assets PyDict.empty.

(** Lines 140 to 144: the base code without its legacy prefix. *)
Definition normalize_base (base_asset_kraken : string) : string :=
  let base_clean := base_asset_kraken in
  if PyStr.startswith "X" base_clean && (PyStr.len base_clean =? 4)%nat then
    PyStr.slice_from_1 base_clean
  else if PyStr.startswith "Z" base_clean && (PyStr.len base_clean =? 4)%nat then
    PyStr.slice_from_1 base_clean
  else base_clean.

(** Lines 146 to 166: the dictionary stored for a matched pair. *)
Definition make_pair_data (pair_name : string) (info : pair_info)
    (base_asset_kraken original_asset : string) : TradingPair :=
  let base_clean := normalize_base base_asset_kraken in
  let altname_ := default pair_name (raw_altname info) in
  let wsname_ := default "" (raw_wsname info) in
  let tv_symbol :=
    if PyStr.truthy wsname_ then PyStr.remove_char "/" wsname_ else altname_ in
  {| symbol := tv_symbol;
     baseAsset := base_clean;
     quoteAsset := original_asset;
     exchange := "Kraken";
     kraken_pair := Some pair_name;
     wsname := Some wsname_;
     altname := Some altname_ |}.

(** [for original_asset, kraken_names in search_assets.items()] with its
    [break] after the first match. *)
Fixpoint match_quote (pair_name : string) (info : pair_info)
    (quote_asset_kraken base_asset_kraken : string)
    (items : list (string * list string)) (st : fetch_state)
  : outcome fetch_state :=
  match items with
  | [] => Return st
  | (original_asset, kraken_names) :: rest =>
      if PyStr.in_list quote_asset_kraken kraken_names then
        record_pair original_asset
          (make_pair_data pair_name info base_asset_kraken original_asset) st
      else
        match_quote pair_name info quote_asset_kraken base_asset_kraken rest st
  end.

(** The body of [for pair_name, pair_info in data['result'].items()]. *)
Definition process_pair (search_assets : PyDict.t (list string))
    (st : fetch_state) (entry : string * pair_info) : outcome fetch_state :=
  let '(pair_name, info) := entry in
  if PyStr.contains ".d" pair_name then Return st
  else
    let quote_asset_kraken := default "" (raw_quote info) in
    let base_asset_kraken := default "" (raw_base info) in
    match_quote pair_name info quote_asset_kraken base_asset_kraken
                (PyDict.items search_assets) st.

Definition fetch_body (quote_assets : list string)
    (reply : api_reply asset_pairs) : outcome (option FetchResult) :=
  data ← get_json reply;
  err ← getitem "error" (error data);
  match err with
  | _ :: _ => Return None
  | [] =>
      let st0 : fetch_state := (init_results quote_assets, []) in
      let search_assets := build_search_assets quote_assets in
      entries ← getitem "result" (result data);
      st ← for_each (process_pair search_assets) (PyDict.items entries) st0;
      Return (Some (make_result "Kraken" st))
  end.

Definition fetch_pairs (quote_assets : list string)
    (reply : api_reply asset_pairs) : option FetchResult :=
  catch (fetch_body quote_assets reply).

End KrakenFetcher.

(** ** The fetch phase of [main] *)

(** [all_results]: one entry per chosen exchange, Binance first; a failed
    fetch leaves [None] in the list. *)
Definition fetch_all (exchanges quote_assets : list string)
    (binance_reply : api_reply BinanceFetcher.exchange_info)
    (kraken_reply : api_reply KrakenFetcher.asset_pairs)
  : list (option FetchResult) :=
  (if PyStr.in_list "binance" exchanges
   then [BinanceFetcher.fetch_pairs quote_assets binance_reply] else [])
  ++
  (if PyStr.in_list "kraken" exchanges
   then [KrakenFetcher.fetch_pairs quote_assets kraken_reply] else []).

(** [any(all_results)]: a result dictionary is truthy, [None] is not. *)
Definition any_result (all_results : list (option FetchResult)) : bool :=
  existsb (fun r => match r with Some _ => true | None => false end) all_results.

(** ** [display_results], choice 3: common pairs *)

(** [f"{pair['baseAsset']}/{pair['quoteAsset']}"]. *)
Definition normalized (pair : TradingPair) : string :=
  baseAsset pair +:+ "/" +:+ quoteAsset pair.

(** [pairs_set], filled by [add] over [result['all_pairs']]. *)
Definition pairs_set_of (r : FetchResult) : gset string :=
  fold_left (fun acc pair => acc ∪ {[ normalized pair ]}) (all_pairs r) ∅.

(** [exchanges_pairs]: exchange name to its set, for the results present. *)
Definition exchanges_pairs (all_results : list (option FetchResult))
  : PyDict.t (gset string) :=
  fold_left (fun d r =>
               match r with
               | Some r => PyDict.set (fr_exchange r) (pairs_set_of r) d
               | None => d
               end)
            all_results PyDict.empty.

(** What the common-pairs screen reports. *)
Record common_report : Type := {
  first_exchange : string;
  second_exchange : string;
  common : gset string;
  only_first : gset string;
  only_second : gset string
}.

Definition common_pairs (all_results : list (option FetchResult))
  : option common_report :=
  if (1 <? length all_results)%nat then
    match PyDict.items (exchanges_pairs all_results) with
    | [(e0, s0); (e1, s1)] =>
        Some {| first_exchange := e0;
                second_exchange := e1;
                common := s0 ∩ s1;
                only_first := s0 ∖ s1;
                only_second := s1 ∖ s0 |}
    | _ => None
    end
  else None.

(** ** [save_results]: the TradingView watchlists *)

(** [sorted(pairs, key=lambda x: x['symbol'])]: Python's sort is stable, and
    a stable sort has one result, computed here by insertion. *)
Fixpoint insert_by_symbol (p : TradingPair) (l : list TradingPair)
  : list TradingPair :=
  match l with
  | [] => [p]
  | q :: rest =>
      if String.leb (symbol p) (symbol q) then p :: q :: rest
      else q :: insert_by_symbol p rest
  end.

Definition sorted_by_symbol (pairs : list TradingPair) : list TradingPair :=
  fold_right insert_by_symbol [] pairs.

Definition newline : string := String (ascii_of_nat 10) EmptyString.

(** [f"{exchange_name}:{pair['symbol']}\n"]. *)
Definition tv_line (exchange_name : string) (pair : TradingPair) : string :=
  exchange_name +:+ ":" +:+ symbol pair +:+ newline.

(** The pairs in the order the two nested loops visit them. *)
Definition tv_pairs (quote_assets : list string) (r : FetchResult)
  : list TradingPair :=
  flat_map (fun asset =>
              sorted_by_symbol (PyDict.get_default asset [] (results r)))
           quote_assets.

(** The [write] calls for one exchange, in order. *)
Definition tv_exchange_lines (quote_assets : list string) (r : FetchResult)
  : list string :=
  let exchange_name := PyStr.upper (fr_exchange r) in
  flat_map (fun asset =>
              map (tv_line exchange_name)
                  (sorted_by_symbol (PyDict.get_default asset [] (results r))))
           quote_assets.

(** The [write] calls of the combined file. *)
Definition tv_combined_lines (quote_assets : list string)
    (all_results : list (option FetchResult)) : list string :=
  flat_map (fun r =>
              match r with
              | Some r => tv_exchange_lines quote_assets r
              | None => []
              end)
           all_results.

(** ["_".join(l)]. *)
Definition join_underscore (l : list string) : string := String.concat "_" l.

(** The files this part opens when the user answers [y]: name and lines, in
    the order of opening. [timestamp] is the clock reading of
    [save_results]. Whether a file can be opened, and whether this part is
    reached at all, is told by [save_results] below. *)
Definition tradingview_files (timestamp : string) (quote_assets : list string)
    (all_results : list (option FetchResult)) : list (string * list string) :=
  let assets := join_underscore quote_assets in
  flat_map (fun r =>
              match r with
              | Some r =>
                  let exchange_name := PyStr.upper (fr_exchange r) in
                  [("export/TradingView_" +:+ exchange_name +:+ "_" +:+ assets
                      +:+ "_" +:+ timestamp +:+ ".txt",
                    tv_exchange_lines quote_assets r)]
              | None => []
              end)
           all_results
  ++
  (if (1 <? length all_results)%nat then
     [("export/TradingView_ALL_" +:+ assets +:+ "_" +:+ timestamp +:+ ".txt",
       tv_combined_lines quote_assets all_results)]
   else []).

(** ** Specification-side vocabulary *)

(** The keys of a dictionary filled by assigning to each element of [l] in
    turn, starting from the keys [seen]: a key already there keeps its place. *)
Definition insertion_order (l seen : list string) : list string :=
  fold_left (fun acc a => if PyStr.in_list a acc then acc else acc ++ [a]) l seen.

(** The distinct codes of a request, in order of first occurrence. *)
Definition first_occurrences (l : list string) : list string :=
  insertion_order l [].

(** The dictionary with keys [ks] whose value under [a] is [g a]. *)
Definition keyed {V : Type} (g : string -> V) (ks : list string) : PyDict.t V :=
  map (fun a => (a, g a)) ks.

(** The pairs of [ps] quoted in [a], in the order of [ps]. *)
Definition quoted_in (ps : list TradingPair) (a : string) : list TradingPair :=
  List.filter (fun p => String.eqb (quoteAsset p) a) ps.

(** [ps] split by quote asset under the keys [ks]. *)
Definition grouped (ks : list string) (ps : list TradingPair)
  : PyDict.t (list TradingPair) :=
  keyed (quoted_in ps) ks.

(** The sum of the lengths of the per-asset lists of a dictionary. *)
Definition bucket_total (d : PyDict.t (list TradingPair)) : nat :=
  list_sum (map (fun l => length l) (PyDict.values d)).

(** The symbols of a list of pairs are in non-decreasing order. *)
Definition symbols_sorted (ps : list TradingPair) : Prop :=
  Sorted (fun p q => String.leb (symbol p) (symbol q) = true) ps.

(** What one loop iteration adds, with the exception it may raise. *)
Definition add_pair (o : option TradingPair) (st : fetch_state) : outcome fetch_state :=
  match o with
  | Some p => record_pair (quoteAsset p) p st
  | None => Return st
  end.

(** The pairs a loop gathers from its input, in input order. *)
Fixpoint collect {X : Type} (step : X -> outcome (option TradingPair))
    (xs : list X) : outcome (list TradingPair) :=
  match xs with
  | [] => Return []
  | x :: rest =>
      o ← step x; ps ← collect step rest; Return (option_list o ++ ps)
  end.

(** What [process_symbol] makes of one record, apart from storing it. *)
Definition binance_normalize (quote_assets : list string)
    (s : BinanceFetcher.symbol_record) : outcome (option TradingPair) :=
  q ← getitem "quoteAsset" (BinanceFetcher.raw_quoteAsset s);
  if PyStr.in_list q quote_assets then
    status ← getitem "status" (BinanceFetcher.raw_status s);
    if String.eqb status "TRADING" then
      sym ← getitem "symbol" (BinanceFetcher.raw_symbol s);
      base ← getitem "baseAsset" (BinanceFetcher.raw_baseAsset s);
      Return (Some {| symbol := sym; baseAsset := base; quoteAsset := q;
                      exchange := "Binance";
                      kraken_pair := None; wsname := None; altname := None |})
    else Return None
  else Return None.

(** The record is quoted in a requested code and its status is TRADING. *)
Definition binance_keeps (quote_assets : list string)
    (s : BinanceFetcher.symbol_record) : bool :=
  match BinanceFetcher.raw_quoteAsset s, BinanceFetcher.raw_status s with
  | Some q, Some status => PyStr.in_list q quote_assets && String.eqb status "TRADING"
  | _, _ => false
  end.

(** The record lacks a key that the loop reads from it. *)
Definition binance_malformed (quote_assets : list string)
    (s : BinanceFetcher.symbol_record) : bool :=
  match BinanceFetcher.raw_quoteAsset s with
  | None => true
  | Some q =>
      PyStr.in_list q quote_assets
      && match BinanceFetcher.raw_status s with
         | None => true
         | Some status =>
             String.eqb status "TRADING"
             && match BinanceFetcher.raw_symbol s, BinanceFetcher.raw_baseAsset s with
                | Some _, Some _ => false
                | _, _ => true
                end
         end
  end.

(** Every key the loop may read is there. *)
Definition binance_complete (s : BinanceFetcher.symbol_record) : Prop :=
  is_Some (BinanceFetcher.raw_symbol s) /\ is_Some (BinanceFetcher.raw_baseAsset s)
  /\ is_Some (BinanceFetcher.raw_quoteAsset s) /\ is_Some (BinanceFetcher.raw_status s).

(** [p] carries the symbol, base and quote of [s] as they are. *)
Definition verbatim (s : BinanceFetcher.symbol_record) (p : TradingPair) : Prop :=
  BinanceFetcher.raw_symbol s = Some (symbol p)
  /\ BinanceFetcher.raw_baseAsset s = Some (baseAsset p)
  /\ BinanceFetcher.raw_quoteAsset s = Some (quoteAsset p)
  /\ exchange p = "Binance"
  /\ kraken_pair p = None /\ wsname p = None /\ altname p = None.

(** The dictionary a fetch returns once its loop has gathered [ps]. *)
Definition result_of (name : string) (quote_assets : list string)
    (ps : list TradingPair) : FetchResult :=
  {| fr_exchange := name;
     results := grouped (first_occurrences quote_assets) ps;
     all_pairs := ps;
     total := length ps |}.

(** The raw quote code of an entry, [''] when the key is missing. *)
Definition kraken_quote (info : KrakenFetcher.pair_info) : string :=
  default "" (KrakenFetcher.raw_quote info).

(** The raw base code of an entry, [''] when the key is missing. *)
Definition kraken_base (info : KrakenFetcher.pair_info) : string :=
  default "" (KrakenFetcher.raw_base info).

(** [code] is requested and Kraken writes it [raw]. *)
Definition resolves_to (raw code : string) : bool :=
  PyStr.in_list raw (KrakenFetcher.kraken_names_of code).


(** What [process_pair] makes of one entry, apart from storing it. *)
Definition kraken_normalize (quote_assets : list string)
    (entry : string * KrakenFetcher.pair_info) : option TradingPair :=
  let '(pair_name, info) := entry in
  if PyStr.contains ".d" pair_name then None
  else
    match find (resolves_to (kraken_quote info)) quote_assets with
    | Some original_asset =>
        Some (KrakenFetcher.make_pair_data pair_name info (kraken_base info)
                original_asset)
    | None => None
    end.

(** The entry is no [.d] contract and its quote resolves from a request. *)
Definition kraken_keeps (quote_assets : list string)
    (entry : string * KrakenFetcher.pair_info) : bool :=
  negb (PyStr.contains ".d" (fst entry))
  && existsb (resolves_to (kraken_quote (snd entry))) quote_assets.

(** [r] is what one of the two fetchers returned for the request. *)
Definition fetched (quote_assets : list string) (r : FetchResult) : Prop :=
  (exists reply, BinanceFetcher.fetch_pairs quote_assets reply = Some r)
  \/ (exists reply, KrakenFetcher.fetch_pairs quote_assets reply = Some r).

(** An error-free Kraken answer carrying [entries]. *)
Definition kraken_listing (entries : PyDict.t KrakenFetcher.pair_info)
  : api_reply KrakenFetcher.asset_pairs :=
  Json {| KrakenFetcher.error := Some [];
          KrakenFetcher.result := Some entries |}.

(** A Binance answer carrying the records [syms]. *)
Definition binance_listing (syms : list BinanceFetcher.symbol_record)
  : api_reply BinanceFetcher.exchange_info :=
  Json {| BinanceFetcher.symbols := Some syms |}.

(** Sample answers of the two exchanges, used to run the theorems. *)
Definition sample_kraken_entries : PyDict.t KrakenFetcher.pair_info :=
  [ ("XXBTZUSD",
     {| KrakenFetcher.raw_base := Some "XXBT";
        KrakenFetcher.raw_quote := Some "ZUSD";
        KrakenFetcher.raw_altname := Some "XBTUSD";
        KrakenFetcher.raw_wsname := Some "XBT/USD" |});
    ("XBTUSD.d",
     {| KrakenFetcher.raw_base := Some "XXBT";
        KrakenFetcher.raw_quote := Some "ZUSD";
        KrakenFetcher.raw_altname := Some "XBTUSD.d";
        KrakenFetcher.raw_wsname := None |});
    ("ETHUSDT",
     {| KrakenFetcher.raw_base := Some "XETH";
        KrakenFetcher.raw_quote := Some "USDT";
        KrakenFetcher.raw_altname := Some "ETHUSDT";
        KrakenFetcher.raw_wsname := None |});
    ("DOTUSD",
     {| KrakenFetcher.raw_base := Some "DOT";
        KrakenFetcher.raw_quote := Some "ZUSD";
        KrakenFetcher.raw_altname := None;
        KrakenFetcher.raw_wsname := Some "" |}) ].

Definition sample_binance_symbols : list BinanceFetcher.symbol_record :=
  [ {| BinanceFetcher.raw_symbol := Some "BTCUSDT";
       BinanceFetcher.raw_baseAsset := Some "BTC";
       BinanceFetcher.raw_quoteAsset := Some "USDT";
       BinanceFetcher.raw_status := Some "TRADING" |};
    {| BinanceFetcher.raw_symbol := Some "BTCUSDC";
       BinanceFetcher.raw_baseAsset := Some "BTC";
       BinanceFetcher.raw_quoteAsset := Some "USDC";
       BinanceFetcher.raw_status := Some "TRADING" |};
    {| BinanceFetcher.raw_symbol := Some "LUNAUSDT";
       BinanceFetcher.raw_baseAsset := Some "LUNA";
       BinanceFetcher.raw_quoteAsset := Some "USDT";
       BinanceFetcher.raw_status := Some "BREAK" |};
    {| BinanceFetcher.raw_symbol := Some "ETHBTC";
       BinanceFetcher.raw_baseAsset := Some "ETH";
       BinanceFetcher.raw_quoteAsset := Some "BTC";
       BinanceFetcher.raw_status := Some "TRADING" |} ].

(** The code has four characters and starts with [X] or [Z]. *)
Definition legacy_prefixed (code : string) : Prop :=
  PyStr.len code = 4
  /\ (PyStr.startswith "X" code = true \/ PyStr.startswith "Z" code = true).

(** The same test as a boolean. *)
Definition legacy_prefixedb (code : string) : bool :=
  (PyStr.len code =? 4)%nat
  && (PyStr.startswith "X" code || PyStr.startswith "Z" code).

(** ** Text typed at the prompts *)

Module PyText.

(** [c.isspace()] for a character below code point 256. *)
Definition is_space (c : ascii) : bool :=
  let n := nat_of_ascii c in
  ((9 <=? n)%nat && (n <=? 13)%nat) || ((28 <=? n)%nat && (n <=? 32)%nat)
  || (n =? 133)%nat || (n =? 160)%nat.

(** [s.lstrip()]. *)
Fixpoint lstrip (s : string) : string :=
  match s with
  | EmptyString => EmptyString
  | String c t => if is_space c then lstrip t else s
  end.

(** [s.rstrip()]. *)
Fixpoint rstrip (s : string) : string :=
  match s with
  | EmptyString => EmptyString
  | String c t =>
      match rstrip t with
      | EmptyString => if is_space c then EmptyString else String c EmptyString
      | t' => String c t'
      end
  end.

(** [s.strip()]. *)
Definition strip (s : string) : string := rstrip (lstrip s).

(** [s.split(sep)] for a one-character [sep]: never an empty list. *)
Fixpoint split (sep : ascii) (s : string) : list string :=
  match s with
  | EmptyString => [EmptyString]
  | String c t =>
      if Ascii.eqb c sep then EmptyString :: split sep t
      else
        match split sep t with
        | w :: ws => String c w :: ws
        | [] => [String c EmptyString]
        end
  end.



(** [sep.join(l)]. *)
Definition join (sep : string) (l : list string) : string := String.concat sep l.

(** [s.ljust(width)], the padding of [f"{s:15}"]: never shorter than [s]. *)
Definition ljust (width : nat) (s : string) : string :=
  s +:+ String.concat "" (repeat " " (width - String.length s)).

(** [c * n] for a one-character string [c]. *)
Definition times (c : string) (n : nat) : string := String.concat "" (repeat c n).

(** The text has ASCII characters only. *)
Definition ascii_only (s : string) : Prop :=
  Forall (fun c => (nat_of_ascii c < 128)%nat) (list_ascii_of_string s).

(** The character occurs in the text. *)
Fixpoint has_char (c : ascii) (s : string) : bool :=
  match s with
  | EmptyString => false
  | String c' t => Ascii.eqb c' c || has_char c t
  end.

End PyText.

(** ** The two menus *)

(** [get_exchange_choice]. The lines still to be typed are [stdin]; each
    [input()] takes the first, and with none left it raises [EOFError],
    which nothing catches ([None]). The result goes with the lines left. *)
Fixpoint get_exchange_choice (stdin : list string)
  : option (list string * list string) :=
  match stdin with
  | [] => None
  | line :: rest =>
      let choice := PyText.strip line in
      if String.eqb choice "1" then Some (["binance"], rest)
      else if String.eqb choice "2" then Some (["kraken"], rest)
      else if String.eqb choice "3" then Some (["binance"; "kraken"], rest)
      else get_exchange_choice rest
  end.

(** [[a.strip() for a in custom.split(',') if a.strip()]]. *)
Definition parse_custom (line : string) : list string :=
  let custom := PyStr.upper (PyText.strip line) in
  map PyText.strip
      (List.filter (fun a => PyStr.truthy (PyText.strip a))
                   (PyText.split "," custom)).

(** [get_asset_choice], over the lines still to be typed. *)
Fixpoint get_asset_choice (stdin : list string)
  : option (list string * list string) :=
  match stdin with
  | [] => None
  | line :: rest =>
      let choice := PyText.strip line in
      if String.eqb choice "1" then Some (["USD"], rest)
      else if String.eqb choice "2" then Some (["USDT"], rest)
      else if String.eqb choice "3" then Some (["USDC"], rest)
      else if String.eqb choice "4" then Some (["USD"; "USDT"; "USDC"], rest)
      else if String.eqb choice "5" then Some (["EUR"], rest)
      else if String.eqb choice "6"
      then Some (["USD"; "USDT"; "USDC"; "EUR"; "GBP"], rest)
      else if String.eqb choice "7" then
        match rest with
        | [] => None
        | custom :: rest' =>
            match parse_custom custom with
            | [] => get_asset_choice rest'
            | assets => Some (assets, rest')
            end
        end
      else get_asset_choice rest
  end.

(** ** [display_results]: the summary and choices 1 and 2 *)

(** [grand_total], summed over the results that are there. *)
Definition grand_total (all_results : list (option FetchResult)) : nat :=
  fold_left (fun acc r =>
               match r with
               | Some r => acc + total r
               | None => acc
               end)
            all_results 0.

(** The lines [asset: count pairs] of one exchange: a count of 0 is not
    printed. *)
Definition asset_counts (quote_assets : list string) (r : FetchResult)
  : list (string * nat) :=
  List.filter (fun line => (0 <? snd line)%nat)
    (map (fun asset =>
            (asset, length (PyDict.get_default asset [] (results r))))
         quote_assets).

(** [range(0, stop, step)] for a positive [step]. *)
Definition range_step (stop step : nat) : list nat :=
  map (fun k => k * step) (seq 0 ((stop + step - 1) / step)).

(** The slice [l[i:j]]. *)
Definition slice {A : Type} (i j : nat) (l : list A) : list A :=
  firstn (j - i) (skipn i l).

(** [[symbols[i:i+columns] for i in range(0, len(symbols), columns)]]. *)
Definition symbol_rows (columns : nat) (symbols : list string)
  : list (list string) :=
  map (fun i => slice i (i + columns) symbols)
      (range_step (length symbols) columns).

(** ["  ".join(f"{s:15}" for s in row)]. *)
Definition format_row (row : list string) : string :=
  PyText.join "  " (map (PyText.ljust 15) row).

(** Choice 1 for one exchange: per requested code with pairs, the rows of
    four sorted symbols. *)
Definition detailed_list (quote_assets : list string) (r : FetchResult)
  : list (string * list (list string)) :=
  flat_map (fun asset =>
              match PyDict.get_default asset [] (results r) with
              | [] => []
              | pairs =>
                  [(asset, symbol_rows 4 (map symbol (sorted_by_symbol pairs)))]
              end)
           quote_assets.








(** ** [save_results]: the plain-text list *)

(** The [write] calls of the TXT list, in order. *)
Definition txt_list_lines (timestamp : string) (quote_assets : list string)
    (all_results : list (option FetchResult)) : list string :=
  [ "Trading Pairs List" +:+ newline;
    "Timestamp: " +:+ timestamp +:+ newline;
    "Quote Asset(s): " +:+ PyText.join ", " quote_assets +:+ newline;
    PyText.times "=" 50 +:+ newline ]
  ++ flat_map
       (fun r =>
          match r with
          | Some r =>
              [ newline +:+ fr_exchange r +:+ " (" +:+ pretty (total r)
                  +:+ " pairs)" +:+ newline;
                PyText.times "-" 30 +:+ newline ]
              ++ flat_map
                   (fun asset =>
                      match PyDict.get_default asset [] (results r) with
                      | [] => []
                      | pairs =>
                          (newline +:+ asset +:+ " pairs:" +:+ newline)
                          :: map (fun pair => "  " +:+ symbol pair +:+ newline)
                                 (sorted_by_symbol pairs)
                      end)
                   quote_assets
          | None => []
          end)
       all_results.

(** ** [save_results]: the files, one after the other *)












(** Every character of the text passes the test. *)
Fixpoint all_chars (P : ascii -> bool) (s : string) : bool :=
  match s with
  | EmptyString => true
  | String c t => P c && all_chars P t
  end.

(** The line, without the blanks around it, is a key of the exchange menu. *)
Definition exchange_key (line : string) : bool :=
  let choice := PyText.strip line in
  String.eqb choice "1" || String.eqb choice "2" || String.eqb choice "3".

(** A code as the custom selection yields them from ASCII text: not empty,
    no blank at either end, no comma, unchanged by [upper], and ASCII. *)
Definition clean_code (a : string) : Prop :=
  a <> "" /\ PyText.strip a = a /\ PyText.has_char "," a = false
  /\ PyStr.upper a = a /\ PyText.ascii_only a.

(** ** Lemmas on strings and dictionaries *)

Lemma in_list_In (x : string) (l : list string) :
  PyStr.in_list x l = true <-> In x l.
Proof.
  unfold PyStr.in_list. rewrite existsb_exists. split.
  - intros [y [Hy Heq]]. apply String.eqb_eq in Heq. now subst.
  - intros H. exists x. split; [assumption | apply String.eqb_refl].
Qed.

Lemma in_list_false (x : string) (l : list string) :
  PyStr.in_list x l = false <-> ~ In x l.
Proof.
  rewrite <- in_list_In. destruct (PyStr.in_list x l); split; congruence.
Qed.

Lemma in_list_app (x : string) (l1 l2 : list string) :
  PyStr.in_list x (l1 ++ l2) = PyStr.in_list x l1 || PyStr.in_list x l2.
Proof. unfold PyStr.in_list. apply existsb_app. Qed.

Section Dict.
Context {V : Type}.
Implicit Types (d : PyDict.t V) (k : string) (v : V).

Lemma get_set_eq k v d : PyDict.get k (PyDict.set k v d) = Some v.
Proof.
  induction d as [|[k' v'] d IH]; simpl.
  - now rewrite String.eqb_refl.
  - destruct (String.eqb k k') eqn:E; simpl; rewrite ?String.eqb_refl, ?E; auto.
Qed.

Lemma get_set_ne k k' v d :
  k <> k' -> PyDict.get k' (PyDict.set k v d) = PyDict.get k' d.
Proof.
  intros Hne. induction d as [|[k0 v0] d IH]; simpl.
  - apply not_eq_sym, String.eqb_neq in Hne. now rewrite Hne.
  - destruct (String.eqb k k0) eqn:E; simpl.
    + apply String.eqb_eq in E. subst k0.
      apply not_eq_sym, String.eqb_neq in Hne. now rewrite Hne.
    + now rewrite IH.
Qed.

Lemma get_keyed (g : string -> V) k ks :
  PyDict.get k (keyed g ks) = if PyStr.in_list k ks then Some (g k) else None.
Proof.
  induction ks as [|a ks IH]; simpl; [reflexivity|].
  destruct (String.eqb k a) eqn:E; simpl.
  - apply String.eqb_eq in E. now subst.
  - exact IH.
Qed.

Lemma keys_keyed (g : string -> V) ks : PyDict.keys (keyed g ks) = ks.
Proof. unfold PyDict.keys, keyed. rewrite map_map. simpl. apply map_id. Qed.

Lemma values_keyed (g : string -> V) ks : PyDict.values (keyed g ks) = map g ks.
Proof. unfold PyDict.values, keyed. now rewrite map_map. Qed.

(** Assigning [g a] under [a] in a keyed dictionary. *)
Lemma set_keyed (g : string -> V) a ks :
  PyDict.set a (g a) (keyed g ks)
  = keyed g (if PyStr.in_list a ks then ks else ks ++ [a]).
Proof.
  induction ks as [|b ks IH]; simpl; [reflexivity|].
  destruct (String.eqb a b) eqn:E; simpl.
  - apply String.eqb_eq in E. now subst.
  - rewrite IH. now destruct (PyStr.in_list a ks).
Qed.

Lemma fold_set_keyed (g : string -> V) l ks :
  fold_left (fun d a => PyDict.set a (g a) d) l (keyed g ks)
  = keyed g (insertion_order l ks).
Proof.
  revert ks. induction l as [|a l IH]; intros ks; simpl; [reflexivity|].
  rewrite set_keyed. apply IH.
Qed.

(** Replacing the value under a key of a dictionary with distinct keys. *)
Lemma set_keyed_update (g h : string -> V) a ks :
  NoDup ks -> In a ks ->
  (forall b, b <> a -> h b = g b) ->
  PyDict.set a (h a) (keyed g ks) = keyed h ks.
Proof.
  intros Hnd Hin Hgh. induction ks as [|b ks IH]; simpl; [destruct Hin|].
  inversion Hnd as [|? ? Hnotin Hnd']; subst.
  destruct (String.eqb a b) eqn:E.
  - apply String.eqb_eq in E. subst b. f_equal.
    unfold keyed. apply map_ext_in. intros c Hc. f_equal.
    symmetry. apply Hgh. intros ->. apply Hnotin, list_elem_of_In, Hc.
  - apply String.eqb_neq in E. destruct Hin as [->|Hin]; [congruence|].
    rewrite IH by assumption. f_equal. f_equal. symmetry. apply Hgh. congruence.
Qed.
End Dict.

Lemma insertion_order_In (a : string) (l seen : list string) :
  In a (insertion_order l seen) <-> In a seen \/ In a l.
Proof.
  revert seen. induction l as [|b l IH]; intros seen; simpl.
  - tauto.
  - rewrite IH. destruct (PyStr.in_list b seen) eqn:E.
    + apply in_list_In in E. split; [tauto|].
      intros [H|[->|H]]; tauto.
    + rewrite in_app_iff. simpl. tauto.
Qed.

Lemma insertion_order_NoDup (l seen : list string) :
  NoDup seen -> NoDup (insertion_order l seen).
Proof.
  revert seen. induction l as [|b l IH]; intros seen Hnd; simpl; [assumption|].
  apply IH. destruct (PyStr.in_list b seen) eqn:E; [assumption|].
  apply in_list_false in E. apply NoDup_app. repeat split; try assumption.
  - intros x Hx Hx'. apply list_elem_of_In in Hx, Hx'.
    destruct Hx' as [<-|[]]. contradiction.
  - apply NoDup_singleton.
Qed.

Lemma find_snoc (f : string -> bool) (l : list string) (b : string) :
  find f (l ++ [b])
  = match find f l with
    | Some x => Some x
    | None => if f b then Some b else None
    end.
Proof.
  induction l as [|a l IH]; simpl; [reflexivity|]. now destruct (f a).
Qed.

Lemma find_insertion_order (f : string -> bool) (l seen : list string) :
  find f (insertion_order l seen)
  = match find f seen with
    | Some x => Some x
    | None => find f l
    end.
Proof.
  revert seen. induction l as [|b l IH]; intros seen; simpl.
  - now destruct (find f seen).
  - rewrite IH. destruct (PyStr.in_list b seen) eqn:E.
    + destruct (find f seen) eqn:F; [reflexivity|].
      destruct (f b) eqn:Fb; [|reflexivity].
      apply in_list_In in E.
      pose proof (find_none f seen F b E). congruence.
    + rewrite find_snoc.
      destruct (find f seen); [reflexivity|]. now destruct (f b).
Qed.

Lemma first_occurrences_NoDup (l : list string) : NoDup (first_occurrences l).
Proof. apply insertion_order_NoDup, NoDup_nil_2. Qed.

Lemma first_occurrences_In (a : string) (l : list string) :
  In a (first_occurrences l) <-> In a l.
Proof. unfold first_occurrences. rewrite insertion_order_In. simpl. tauto. Qed.

(** A request without repetition is its own list of distinct codes. *)
Lemma insertion_order_fresh (l seen : list string) :
  NoDup (seen ++ l) -> insertion_order l seen = seen ++ l.
Proof.
  revert seen. induction l as [|b l IH]; intros seen Hnd; simpl.
  - now rewrite app_nil_r.
  - assert (Hb : PyStr.in_list b seen = false).
    { apply in_list_false. intros Hin.
      apply NoDup_app in Hnd as (_ & Hdisj & _).
      apply (Hdisj b); [now apply list_elem_of_In | left]. }
    rewrite Hb. replace (seen ++ b :: l) with ((seen ++ [b]) ++ l) in *
      by now rewrite <- app_assoc.
    now apply IH.
Qed.

Lemma first_occurrences_NoDup_id (l : list string) :
  NoDup l -> first_occurrences l = l.
Proof. intros H. now apply (insertion_order_fresh l []). Qed.

(** ** The two loops keep [results] grouped by quote asset *)

Lemma init_results_grouped (quote_assets : list string) :
  init_results quote_assets = grouped (first_occurrences quote_assets) [].
Proof.
  unfold init_results, PyDict.empty.
  change (@nil (string * list TradingPair))
    with (keyed (fun _ : string => @nil TradingPair) []) at 1.
  now rewrite (fold_set_keyed (fun _ => [])).
Qed.

Lemma quoted_in_snoc_same (ps : list TradingPair) (p : TradingPair) :
  quoted_in (ps ++ [p]) (quoteAsset p) = quoted_in ps (quoteAsset p) ++ [p].
Proof.
  unfold quoted_in. rewrite List.filter_app. simpl. now rewrite String.eqb_refl.
Qed.

Lemma quoted_in_snoc_other (ps : list TradingPair) (p : TradingPair) (a : string) :
  a <> quoteAsset p -> quoted_in (ps ++ [p]) a = quoted_in ps a.
Proof.
  intros Hne. unfold quoted_in. rewrite List.filter_app. simpl.
  apply not_eq_sym, String.eqb_neq in Hne. rewrite Hne. apply app_nil_r.
Qed.

Lemma record_pair_grouped (ks : list string) (ps : list TradingPair) (p : TradingPair) :
  NoDup ks -> In (quoteAsset p) ks ->
  record_pair (quoteAsset p) p (grouped ks ps, ps)
  = Return (grouped ks (ps ++ [p]), ps ++ [p]).
Proof.
  intros Hnd Hin. unfold record_pair, grouped.
  rewrite get_keyed. apply in_list_In in Hin as Hin'. rewrite Hin'. simpl.
  f_equal. f_equal. rewrite <- quoted_in_snoc_same.
  apply set_keyed_update; try assumption.
  intros b Hb. now apply quoted_in_snoc_other.
Qed.

#[local] Arguments record_pair : simpl never.

Section Loop.
Context {X : Type}.
Variable step : X -> outcome (option TradingPair).
Variable body : fetch_state -> X -> outcome fetch_state.
Variable ks : list string.
Hypothesis ks_NoDup : NoDup ks.
Hypothesis body_step : forall st x, body st x = (o ← step x; add_pair o st).
Hypothesis step_key :
  forall x p, step x = Return (Some p) -> In (quoteAsset p) ks.

Lemma for_each_collect (xs : list X) (ps : list TradingPair) :
  for_each body xs (grouped ks ps, ps)
  = (new ← collect step xs; Return (grouped ks (ps ++ new), ps ++ new)).
Proof.
  revert ps. induction xs as [|x xs IH]; intros ps; simpl.
  - now rewrite app_nil_r.
  - rewrite body_step. destruct (step x) as [[p|]|e] eqn:E; simpl; [| |reflexivity].
    + rewrite record_pair_grouped by eauto. simpl. rewrite IH.
      destruct (collect step xs) as [new|e']; simpl; [|reflexivity].
      now rewrite <- app_assoc.
    + rewrite IH. now destruct (collect step xs).
Qed.
End Loop.

(** ** Binance: the loop as a whole *)

Lemma binance_process_symbol quote_assets st s :
  BinanceFetcher.process_symbol quote_assets st s
  = (o ← binance_normalize quote_assets s; add_pair o st).
Proof.
  unfold BinanceFetcher.process_symbol, binance_normalize.
  destruct s as [[sym|] [base|] [q|] [status|]]; simpl; try reflexivity;
    destruct (PyStr.in_list q quote_assets); simpl; try reflexivity;
    destruct (String.eqb status "TRADING"); reflexivity.
Qed.

Lemma binance_normalize_cases quote_assets s :
  match binance_normalize quote_assets s with
  | Raise _ => binance_malformed quote_assets s = true
  | Return None =>
      binance_malformed quote_assets s = false
      /\ binance_keeps quote_assets s = false
  | Return (Some p) =>
      binance_malformed quote_assets s = false
      /\ binance_keeps quote_assets s = true
      /\ verbatim s p /\ In (quoteAsset p) quote_assets
  end.
Proof.
  unfold binance_normalize, binance_malformed, binance_keeps, verbatim.
  destruct s as [[sym|] [base|] [q|] [status|]]; simpl; try reflexivity;
    destruct (PyStr.in_list q quote_assets) eqn:Hq; simpl; try (split; reflexivity);
    try reflexivity;
    destruct (String.eqb status "TRADING") eqn:Hs; simpl;
    try reflexivity; try (split; reflexivity).
  apply in_list_In in Hq. repeat split; assumption.
Qed.

Lemma binance_complete_not_malformed quote_assets s :
  binance_complete s -> binance_malformed quote_assets s = false.
Proof.
  intros ([? Ha] & [? Hb] & [? Hc] & [? Hd]). unfold binance_malformed.
  rewrite Ha, Hb, Hc, Hd.
  destruct (PyStr.in_list _ _), (String.eqb _ _); reflexivity.
Qed.

Lemma binance_collect quote_assets syms :
  match collect (binance_normalize quote_assets) syms with
  | Raise _ => existsb (binance_malformed quote_assets) syms = true
  | Return new =>
      existsb (binance_malformed quote_assets) syms = false
      /\ Forall2 verbatim (List.filter (binance_keeps quote_assets) syms) new
      /\ Forall (fun p => In (quoteAsset p) quote_assets) new
  end.
Proof.
  induction syms as [|s syms IH]; simpl.
  - repeat split; constructor.
  - pose proof (binance_normalize_cases quote_assets s) as Hs.
    destruct (binance_normalize quote_assets s) as [[p|]|e]; simpl.
    + destruct Hs as (Hm & Hk & Hv & Hq). rewrite Hm, Hk. simpl.
      destruct (collect _ syms) as [new|e]; simpl; [|exact IH].
      destruct IH as (IH1 & IH2 & IH3). repeat split; auto.
    + destruct Hs as (Hm & Hk). rewrite Hm, Hk. simpl.
      destruct (collect _ syms) as [new|e]; simpl; exact IH.
    + now rewrite Hs.
Qed.

Lemma binance_fetch_json quote_assets syms :
  BinanceFetcher.fetch_pairs quote_assets
    (Json {| BinanceFetcher.symbols := Some syms |})
  = match collect (binance_normalize quote_assets) syms with
    | Return new => Some (result_of "Binance" quote_assets new)
    | Raise _ => None
    end.
Proof.
  unfold BinanceFetcher.fetch_pairs, BinanceFetcher.fetch_body. simpl.
  rewrite init_results_grouped.
  rewrite (for_each_collect (binance_normalize quote_assets) _
             (first_occurrences quote_assets)).
  - simpl. destruct (collect _ syms); reflexivity.
  - apply first_occurrences_NoDup.
  - intros. apply binance_process_symbol.
  - intros x p Hx. apply first_occurrences_In.
    pose proof (binance_normalize_cases quote_assets x) as H.
    rewrite Hx in H. tauto.
Qed.

(** ** Kraken: the loop as a whole *)

Lemma build_search_assets_keyed quote_assets :
  KrakenFetcher.build_search_assets quote_assets
  = keyed KrakenFetcher.kraken_names_of (first_occurrences quote_assets).
Proof.
  unfold KrakenFetcher.build_search_assets, PyDict.empty.
  change (@nil (string * list string))
    with (keyed KrakenFetcher.kraken_names_of []) at 1.
  now rewrite fold_set_keyed.
Qed.

Lemma match_quote_keyed pair_name info q b ks st :
  KrakenFetcher.match_quote pair_name info q b
    (keyed KrakenFetcher.kraken_names_of ks) st
  = add_pair
      (option_map (KrakenFetcher.make_pair_data pair_name info b)
                  (find (resolves_to q) ks))
      st.
Proof.
  induction ks as [|a ks IH]; simpl; [reflexivity|].
  unfold resolves_to at 1. destruct (PyStr.in_list q _); [reflexivity | exact IH].
Qed.

Lemma kraken_process_pair quote_assets st entry :
  KrakenFetcher.process_pair (KrakenFetcher.build_search_assets quote_assets) st entry
  = add_pair (kraken_normalize quote_assets entry) st.
Proof.
  destruct entry as [pair_name info].
  unfold KrakenFetcher.process_pair, kraken_normalize.
  destruct (PyStr.contains ".d" pair_name); [reflexivity|].
  rewrite build_search_assets_keyed. unfold PyDict.items.
  rewrite match_quote_keyed. unfold first_occurrences.
  rewrite find_insertion_order. simpl.
  fold (kraken_quote info). fold (kraken_base info).
  now destruct (find _ quote_assets).
Qed.

Lemma collect_total {X : Type} (f : X -> option TradingPair) (xs : list X) :
  collect (fun x => Return (f x)) xs = Return (omap f xs).
Proof.
  induction xs as [|x xs IH]; simpl; [reflexivity|].
  rewrite IH. simpl. now destruct (f x).
Qed.

Lemma kraken_normalize_quote quote_assets entry p :
  kraken_normalize quote_assets entry = Some p ->
  find (resolves_to (kraken_quote (snd entry))) quote_assets = Some (quoteAsset p).
Proof.
  destruct entry as [pair_name info]. unfold kraken_normalize. simpl.
  destruct (PyStr.contains ".d" pair_name); [discriminate|].
  destruct (find _ quote_assets) as [a|]; [|discriminate].
  intros [= <-]. reflexivity.
Qed.

Lemma kraken_fetch_json quote_assets entries :
  KrakenFetcher.fetch_pairs quote_assets
    (Json {| KrakenFetcher.error := Some [];
             KrakenFetcher.result := Some entries |})
  = Some (result_of "Kraken" quote_assets
            (omap (kraken_normalize quote_assets) entries)).
Proof.
  unfold KrakenFetcher.fetch_pairs, KrakenFetcher.fetch_body. simpl.
  rewrite init_results_grouped. unfold PyDict.items.
  rewrite (for_each_collect (fun x => Return (kraken_normalize quote_assets x)) _
             (first_occurrences quote_assets)).
  - rewrite collect_total. reflexivity.
  - apply first_occurrences_NoDup.
  - intros. apply kraken_process_pair.
  - intros x p [= Hx]. apply first_occurrences_In.
    apply kraken_normalize_quote in Hx. now apply find_some in Hx.
Qed.

(** A successful Kraken fetch had a well-shaped, error-free answer. *)
Lemma kraken_fetch_some quote_assets reply r :
  KrakenFetcher.fetch_pairs quote_assets reply = Some r ->
  exists entries,
    reply = Json {| KrakenFetcher.error := Some [];
                    KrakenFetcher.result := Some entries |}
    /\ r = result_of "Kraken" quote_assets
             (omap (kraken_normalize quote_assets) entries).
Proof.
  intros H. destruct reply as [| | |[[[|msg msgs]|] [entries|]]];
    try discriminate H.
  exists entries. split; [reflexivity|].
  rewrite kraken_fetch_json in H. congruence.
Qed.

(** An error-free Kraken answer is always fetched successfully. *)
Lemma kraken_fetch_total quote_assets entries :
  exists r,
    KrakenFetcher.fetch_pairs quote_assets (kraken_listing entries) = Some r.
Proof. unfold kraken_listing. rewrite kraken_fetch_json. eauto. Qed.

(** A successful Binance fetch had a listing and read every record. *)
Lemma binance_fetch_some quote_assets reply r :
  BinanceFetcher.fetch_pairs quote_assets reply = Some r ->
  exists syms new,
    reply = Json {| BinanceFetcher.symbols := Some syms |}
    /\ collect (binance_normalize quote_assets) syms = Return new
    /\ r = result_of "Binance" quote_assets new.
Proof.
  intros H. destruct reply as [| | |[[syms|]]]; try discriminate H.
  rewrite binance_fetch_json in H.
  destruct (collect _ syms) as [new|e] eqn:E; [|discriminate].
  exists syms, new. split; [reflexivity|]. split; [assumption|]. congruence.
Qed.

(** Kept inputs and gathered pairs correspond one to one, in order. *)
Lemma Forall2_filter_omap {X : Type} (keeps : X -> bool)
    (f : X -> option TradingPair) (R : X -> TradingPair -> Prop) (xs : list X) :
  (forall x, In x xs -> keeps x = false -> f x = None) ->
  (forall x, In x xs -> keeps x = true -> exists p, f x = Some p /\ R x p) ->
  Forall2 R (List.filter keeps xs) (omap f xs).
Proof.
  induction xs as [|x xs IH]; intros Hskip Hkeep; simpl; [constructor|].
  assert (IH' : Forall2 R (List.filter keeps xs) (omap f xs)).
  { apply IH; intros; [apply Hskip | apply Hkeep]; simpl; auto. }
  destruct (keeps x) eqn:E.
  - destruct (Hkeep x (or_introl eq_refl) E) as (p & -> & HR). now constructor.
  - now rewrite (Hskip x (or_introl eq_refl) E).
Qed.

Lemma kraken_normalize_skips quote_assets entry :
  kraken_keeps quote_assets entry = false ->
  kraken_normalize quote_assets entry = None.
Proof.
  destruct entry as [pair_name info]. unfold kraken_keeps, kraken_normalize. simpl.
  destruct (PyStr.contains ".d" pair_name); [reflexivity|]. simpl.
  intros H. destruct (find _ quote_assets) as [a|] eqn:F; [|reflexivity].
  apply find_some in F as [Hin Ha].
  assert (existsb (resolves_to (kraken_quote info)) quote_assets = true)
    by (apply existsb_exists; eauto).
  congruence.
Qed.

Lemma kraken_normalize_keeps quote_assets entry :
  kraken_keeps quote_assets entry = true ->
  exists a,
    find (resolves_to (kraken_quote (snd entry))) quote_assets = Some a
    /\ kraken_normalize quote_assets entry
       = Some (KrakenFetcher.make_pair_data (fst entry) (snd entry)
                 (kraken_base (snd entry)) a).
Proof.
  destruct entry as [pair_name info]. unfold kraken_keeps, kraken_normalize. simpl.
  destruct (PyStr.contains ".d" pair_name); [discriminate|]. simpl.
  intros H. destruct (find _ quote_assets) as [a|] eqn:F; [eauto|].
  apply existsb_exists in H as (a & Hin & Ha).
  pose proof (find_none _ _ F a Hin). congruence.
Qed.

(** ** Counting *)

Lemma indicator_sum_absent (q : string) (ks : list string) :
  ~ In q ks ->
  list_sum (map (fun a => if String.eqb q a then 1 else 0) ks) = 0.
Proof.
  induction ks as [|b ks IH]; intros Hnotin; simpl; [reflexivity|].
  destruct (String.eqb q b) eqn:E.
  - apply String.eqb_eq in E. subst b. exfalso. apply Hnotin. now left.
  - simpl. apply IH. intros H. apply Hnotin. now right.
Qed.

Lemma indicator_sum (q : string) (ks : list string) :
  NoDup ks -> In q ks ->
  list_sum (map (fun a => if String.eqb q a then 1 else 0) ks) = 1.
Proof.
  induction ks as [|a ks IH]; intros Hnd Hin; [destruct Hin|]. simpl.
  apply NoDup_cons in Hnd as [Hnotin Hnd].
  destruct (String.eqb q a) eqn:E.
  - apply String.eqb_eq in E. subst a.
    rewrite indicator_sum_absent; [reflexivity|].
    intros H. now apply Hnotin, list_elem_of_In.
  - apply String.eqb_neq in E. destruct Hin as [->|Hin]; [congruence|]. auto.
Qed.

Lemma bucket_total_grouped (ks : list string) (ps : list TradingPair) :
  NoDup ks -> Forall (fun p => In (quoteAsset p) ks) ps ->
  bucket_total (grouped ks ps) = length ps.
Proof.
  intros Hnd Hall. unfold bucket_total, grouped. rewrite values_keyed, map_map.
  induction Hall as [|p ps Hp Hall IH]; simpl.
  - clear Hnd. induction ks; simpl; auto.
  - change (S (length ps)) with (1 + length ps).
    rewrite <- IH, <- (indicator_sum (quoteAsset p) ks Hnd Hp).
    clear. induction ks as [|a ks IHk]; simpl; [reflexivity|].
    rewrite IHk. destruct (String.eqb (quoteAsset p) a); simpl; lia.
Qed.

Lemma get_default_grouped (ks : list string) (ps : list TradingPair) (a : string) :
  PyDict.get_default a [] (grouped ks ps)
  = if PyStr.in_list a ks then quoted_in ps a else [].
Proof.
  unfold PyDict.get_default, grouped. rewrite get_keyed.
  now destruct (PyStr.in_list a ks).
Qed.

Lemma bucket_total_by_code (ks : list string) (ps : list TradingPair) :
  bucket_total (grouped ks ps)
  = list_sum (map (fun a => length (PyDict.get_default a [] (grouped ks ps))) ks).
Proof.
  unfold bucket_total, grouped at 1. rewrite values_keyed, map_map.
  f_equal. apply map_ext_in. intros a Ha.
  rewrite get_default_grouped. apply in_list_In in Ha. now rewrite Ha.
Qed.

Lemma quoted_in_quote (ps : list TradingPair) (a : string) :
  Forall (fun p => quoteAsset p = a) (quoted_in ps a).
Proof.
  apply List.Forall_forall. intros p Hp. unfold quoted_in in Hp.
  apply filter_In in Hp as [_ Hp]. now apply String.eqb_eq in Hp.
Qed.

(** ** Sorting by symbol *)

Lemma insert_by_symbol_perm (p : TradingPair) (l : list TradingPair) :
  Permutation (insert_by_symbol p l) (p :: l).
Proof.
  induction l as [|q l IH]; simpl; [reflexivity|].
  destruct (String.leb (symbol p) (symbol q)); [reflexivity|].
  rewrite IH. apply perm_swap.
Qed.

Lemma sorted_by_symbol_perm (l : list TradingPair) :
  Permutation (sorted_by_symbol l) l.
Proof.
  induction l as [|p l IH]; simpl; [reflexivity|].
  rewrite insert_by_symbol_perm. now constructor.
Qed.

Lemma insert_by_symbol_sorted (p : TradingPair) (l : list TradingPair) :
  symbols_sorted l -> symbols_sorted (insert_by_symbol p l).
Proof.
  unfold symbols_sorted. induction l as [|q l IH]; intros Hs; simpl.
  - repeat constructor.
  - destruct (String.leb (symbol p) (symbol q)) eqn:E.
    + constructor; [assumption | now constructor].
    + apply Sorted_inv in Hs as [Hs Hhd]. constructor; [now apply IH|].
      destruct l as [|q' l]; simpl.
      * constructor. destruct (String.leb_total (symbol p) (symbol q)); congruence.
      * destruct (String.leb (symbol p) (symbol q')).
        -- constructor.
           destruct (String.leb_total (symbol p) (symbol q)); congruence.
        -- constructor. now apply HdRel_inv in Hhd.
Qed.

Lemma sorted_by_symbol_sorted (l : list TradingPair) :
  symbols_sorted (sorted_by_symbol l).
Proof.
  induction l as [|p l IH]; simpl; [constructor|].
  now apply insert_by_symbol_sorted.
Qed.

(** ** The TradingView lines *)

Lemma tv_exchange_lines_pairs (quote_assets : list string) (r : FetchResult) :
  tv_exchange_lines quote_assets r
  = map (tv_line (PyStr.upper (fr_exchange r))) (tv_pairs quote_assets r).
Proof.
  unfold tv_exchange_lines, tv_pairs.
  induction quote_assets as [|a l IH]; simpl; [reflexivity|].
  now rewrite map_app, IH.
Qed.

Lemma quoted_in_cons (p : TradingPair) (ps : list TradingPair) (a : string) :
  quoted_in (p :: ps) a
  = if String.eqb (quoteAsset p) a then p :: quoted_in ps a else quoted_in ps a.
Proof. reflexivity. Qed.

Lemma flat_map_quoted_absent (p : TradingPair) (ps : list TradingPair)
    (ks : list string) :
  ~ In (quoteAsset p) ks ->
  flat_map (quoted_in (p :: ps)) ks = flat_map (quoted_in ps) ks.
Proof.
  induction ks as [|a ks IH]; intros Hnotin; cbn [flat_map]; [reflexivity|].
  rewrite quoted_in_cons.
  destruct (String.eqb (quoteAsset p) a) eqn:E.
  - apply String.eqb_eq in E. exfalso. apply Hnotin. now left.
  - f_equal. apply IH. intros H. apply Hnotin. now right.
Qed.

Lemma flat_map_quoted_cons (p : TradingPair) (ps : list TradingPair)
    (ks : list string) :
  NoDup ks -> In (quoteAsset p) ks ->
  Permutation (flat_map (quoted_in (p :: ps)) ks) (p :: flat_map (quoted_in ps) ks).
Proof.
  induction ks as [|a ks IH]; intros Hnd Hin; [destruct Hin|]. cbn [flat_map].
  apply NoDup_cons in Hnd as [Hnotin Hnd]. rewrite quoted_in_cons.
  destruct (String.eqb (quoteAsset p) a) eqn:E.
  - apply String.eqb_eq in E. subst a. simpl. constructor.
    rewrite flat_map_quoted_absent; [reflexivity|].
    intros H. now apply Hnotin, list_elem_of_In.
  - apply String.eqb_neq in E. destruct Hin as [Heq|Hin]; [congruence|].
    rewrite (IH Hnd Hin). symmetry. apply Permutation_middle.
Qed.

(** Splitting by distinct codes that cover every pair loses nothing. *)
Lemma flat_map_quoted_perm (ps : list TradingPair) (ks : list string) :
  NoDup ks -> Forall (fun p => In (quoteAsset p) ks) ps ->
  Permutation (flat_map (quoted_in ps) ks) ps.
Proof.
  intros Hnd Hall. induction Hall as [|p ps Hp Hall IH].
  - clear Hnd. induction ks; simpl; auto.
  - rewrite flat_map_quoted_cons by assumption. now constructor.
Qed.

Lemma flat_map_perm_ext {A B : Type} (f g : A -> list B) (l : list A) :
  (forall a, In a l -> Permutation (f a) (g a)) ->
  Permutation (flat_map f l) (flat_map g l).
Proof.
  induction l as [|a l IH]; intros H; simpl; [reflexivity|].
  apply Permutation_app; [apply H; now left | apply IH; intros; apply H; now right].
Qed.

(** With distinct requested codes the file has each fetched pair once. *)
Lemma tv_pairs_perm (name : string) (quote_assets : list string)
    (ps : list TradingPair) :
  NoDup quote_assets ->
  Forall (fun p => In (quoteAsset p) quote_assets) ps ->
  Permutation (tv_pairs quote_assets (result_of name quote_assets ps)) ps.
Proof.
  intros Hnd Hall. unfold tv_pairs, result_of. simpl.
  rewrite first_occurrences_NoDup_id by assumption.
  transitivity (flat_map (quoted_in ps) quote_assets);
    [|now apply flat_map_quoted_perm].
  apply flat_map_perm_ext. intros a Ha.
  rewrite get_default_grouped. apply in_list_In in Ha. rewrite Ha.
  apply sorted_by_symbol_perm.
Qed.

(** The blocks of the file: one per requested code, each sorted. *)
Lemma tv_pairs_blocks (quote_assets : list string) (r : FetchResult) :
  exists blocks,
    tv_pairs quote_assets r = concat blocks
    /\ Forall2 (fun asset block =>
                  symbols_sorted block
                  /\ Permutation block (PyDict.get_default asset [] (results r)))
               quote_assets blocks.
Proof.
  exists (map (fun asset =>
                 sorted_by_symbol (PyDict.get_default asset [] (results r)))
              quote_assets).
  split.
  - unfold tv_pairs. now rewrite flat_map_concat_map.
  - induction quote_assets as [|a l IH]; simpl; constructor; [|exact IH].
    split; [apply sorted_by_symbol_sorted | apply sorted_by_symbol_perm].
Qed.

(** ** Sets of pairs *)

Lemma size_inter_difference (A B : gset string) :
  size (A ∩ B) + size (A ∖ B) = size A.
Proof.
  rewrite <- size_union.
  - f_equal. apply set_eq. intros x.
    rewrite elem_of_union, elem_of_intersection, elem_of_difference.
    destruct (decide (x ∈ B)); tauto.
  - apply elem_of_disjoint. intros x.
    rewrite elem_of_intersection, elem_of_difference. tauto.
Qed.

(** ** What both fetchers return *)

Lemma fetched_result_of (quote_assets : list string) (r : FetchResult) :
  fetched quote_assets r ->
  exists name ps,
    r = result_of name quote_assets ps
    /\ Forall (fun p => In (quoteAsset p) quote_assets) ps.
Proof.
  intros [[reply H]|[reply H]].
  - apply binance_fetch_some in H as (syms & new & _ & Hc & ->).
    exists "Binance", new. split; [reflexivity|].
    pose proof (binance_collect quote_assets syms) as Hb. rewrite Hc in Hb. tauto.
  - apply kraken_fetch_some in H as (entries & _ & ->).
    exists "Kraken", (omap (kraken_normalize quote_assets) entries).
    split; [reflexivity|].
    induction entries as [|e entries IH]; simpl; [constructor|].
    destruct (kraken_normalize quote_assets e) as [p|] eqn:E; [|exact IH].
    constructor; [|exact IH].
    apply kraken_normalize_quote in E. now apply find_some in E.
Qed.

Lemma kraken_kept_pairs (quote_assets : list string)
    (entries : list (string * KrakenFetcher.pair_info)) :
  Forall2 (fun entry p =>
             exists a,
               find (resolves_to (kraken_quote (snd entry))) quote_assets = Some a
               /\ p = KrakenFetcher.make_pair_data (fst entry) (snd entry)
                        (kraken_base (snd entry)) a)
          (List.filter (kraken_keeps quote_assets) entries)
          (omap (kraken_normalize quote_assets) entries).
Proof.
  apply Forall2_filter_omap.
  - intros x _. apply kraken_normalize_skips.
  - intros x _ Hk. destruct (kraken_normalize_keeps _ _ Hk) as (a & Hf & Hn). eauto.
Qed.

Lemma kraken_normalize_dot_d quote_assets pair_name info :
  PyStr.contains ".d" pair_name = true ->
  kraken_normalize quote_assets (pair_name, info) = None.
Proof. intros H. unfold kraken_normalize. now rewrite H. Qed.

Lemma kraken_omap_spot_only (quote_assets : list string)
    (entries : list (string * KrakenFetcher.pair_info)) :
  omap (kraken_normalize quote_assets)
       (List.filter (fun e => negb (PyStr.contains ".d" (fst e))) entries)
  = omap (kraken_normalize quote_assets) entries.
Proof.
  induction entries as [|[pair_name info] entries IH]; [reflexivity|].
  cbn [List.filter fst].
  destruct (PyStr.contains ".d" pair_name) eqn:E; cbn [negb].
  - rewrite IH. cbn [omap list_omap].
    now rewrite kraken_normalize_dot_d.
  - cbn [omap list_omap]. now rewrite IH.
Qed.

Lemma kraken_omap_no_dot_d (quote_assets : list string)
    (entries : list (string * KrakenFetcher.pair_info)) (p : TradingPair) :
  In p (omap (kraken_normalize quote_assets) entries) ->
  exists pair_name info,
    In (pair_name, info) entries
    /\ kraken_pair p = Some pair_name
    /\ PyStr.contains ".d" pair_name = false.
Proof.
  induction entries as [|[pair_name info] entries IH]; simpl; [intros []|].
  destruct (PyStr.contains ".d" pair_name) eqn:E.
  - intros H. destruct (IH H) as (n & i & Hin & Hk & Hc). eauto 6.
  - destruct (find _ quote_assets) as [a|].
    + intros [<-|H].
      * exists pair_name, info. simpl. auto.
      * destruct (IH H) as (n & i & Hin & Hk & Hc). eauto 6.
    + intros H. destruct (IH H) as (n & i & Hin & Hk & Hc). eauto 6.
Qed.

Lemma string_cons_neq (c : ascii) (t : string) : String c t <> t.
Proof.
  intros H. apply (f_equal String.length) in H. simpl in H. lia.
Qed.

Lemma legacy_prefixed_iff (code : string) :
  legacy_prefixed code <-> legacy_prefixedb code = true.
Proof.
  unfold legacy_prefixed, legacy_prefixedb.
  rewrite andb_true_iff, orb_true_iff, Nat.eqb_eq. reflexivity.
Qed.

Lemma normalize_base_eq (code : string) :
  KrakenFetcher.normalize_base code
  = if legacy_prefixedb code then PyStr.slice_from_1 code else code.
Proof.
  unfold KrakenFetcher.normalize_base, legacy_prefixedb.
  destruct (PyStr.len code =? 4)%nat, (PyStr.startswith "X" code),
    (PyStr.startswith "Z" code); reflexivity.
Qed.

(** The alias lists of Kraken's table have no code in common. *)
Lemma asset_map_aliases_disjoint (a b q : string) :
  In a (PyDict.keys KrakenFetcher.asset_map) ->
  In b (PyDict.keys KrakenFetcher.asset_map) ->
  resolves_to q a = true -> resolves_to q b = true -> a = b.
Proof.
  intros Ha Hb Hqa Hqb. unfold resolves_to in *.
  apply in_list_In in Hqa. simpl in Ha, Hb.
  repeat (destruct Ha as [<-|Ha]); try contradiction;
    simpl in Hqa; repeat (destruct Hqa as [<-|Hqa]); try contradiction;
    repeat (destruct Hb as [<-|Hb]); try contradiction;
    try reflexivity; vm_compute in Hqb; discriminate Hqb.
Qed.





(** * The claims *)

(** ** C1: base-asset canonicalization *)

(** C1. The canonicalized base is the code with its first character removed,
    that is, the code is one character followed by the canonicalized base, if
    and only if the code has exactly four characters and starts with X or Z;
    it is then the slice [code[1:]] that the program takes. For every other
    code, the empty one included, canonicalization is the identity. *)
Theorem normalize_base_strips_legacy_prefix (code : string) :
  ((exists c, code = String c (KrakenFetcher.normalize_base code))
   <-> legacy_prefixed code)
  /\ (legacy_prefixed code ->
      KrakenFetcher.normalize_base code = PyStr.slice_from_1 code)
  /\ (~ legacy_prefixed code -> KrakenFetcher.normalize_base code = code).
Proof.
  rewrite legacy_prefixed_iff, normalize_base_eq.
  destruct (legacy_prefixedb code) eqn:E.
  - destruct code as [|c t]; [discriminate E|].
    split; [|split].
    + split; [reflexivity|]. intros _. exists c. reflexivity.
    + reflexivity.
    + intros H. now contradiction H.
  - split; [|split].
    + split; [|discriminate].
      intros [c H]. exfalso. symmetry in H. exact (string_cons_neq c code H).
    + discriminate.
    + reflexivity.
Qed.

Lemma normalize_base_strips_legacy_prefix_witness :
  KrakenFetcher.normalize_base "XXBT" = "XBT"
  /\ KrakenFetcher.normalize_base "XTZ" = "XTZ"
  /\ KrakenFetcher.normalize_base "" = "".
Proof.
  split; [|split].
  - apply (proj1 (proj2 (normalize_base_strips_legacy_prefix "XXBT"))).
    split; [reflexivity | left; reflexivity].
  - apply (proj2 (proj2 (normalize_base_strips_legacy_prefix "XTZ"))).
    intros [Hlen _]. discriminate Hlen.
  - apply (proj2 (proj2 (normalize_base_strips_legacy_prefix ""))).
    intros [Hlen _]. discriminate Hlen.
Defined.

(** ** C2: the XXBT/ZUSD example *)

(** C2, counterexample. For the entry of the claim, here under the pair name
    XXBTZUSD with altname XBTUSD, the base asset recorded is XBT, the raw
    code without its X, and not BTC: nothing in the fetcher renames XBT. *)
Lemma kraken_example_base_is_not_btc :
  exists r p,
    KrakenFetcher.fetch_pairs ["USD"]
      (kraken_listing
         [("XXBTZUSD",
           {| KrakenFetcher.raw_base := Some "XXBT";
              KrakenFetcher.raw_quote := Some "ZUSD";
              KrakenFetcher.raw_altname := Some "XBTUSD";
              KrakenFetcher.raw_wsname := Some "BTC/USD" |})])
    = Some r
    /\ all_pairs r = [p]
    /\ baseAsset p <> "BTC".
Proof.
  eexists _, _. split; [vm_compute; reflexivity|].
  split; [reflexivity|]. simpl. discriminate.
Qed.

(** C2, amended. The entry with base XXBT, quote ZUSD and wsname BTC/USD,
    under any pair name that is no [.d] contract and with or without an
    altname, requested under USD, is fetched as one pair with symbol BTCUSD,
    base asset XBT and quote asset USD. *)
Theorem kraken_example_xxbt_zusd (pair_name : string) (alt : option string) :
  PyStr.contains ".d" pair_name = false ->
  exists r p,
    KrakenFetcher.fetch_pairs ["USD"]
      (kraken_listing
         [(pair_name,
           {| KrakenFetcher.raw_base := Some "XXBT";
              KrakenFetcher.raw_quote := Some "ZUSD";
              KrakenFetcher.raw_altname := alt;
              KrakenFetcher.raw_wsname := Some "BTC/USD" |})])
    = Some r
    /\ all_pairs r = [p]
    /\ results r = [("USD", [p])]
    /\ total r = 1
    /\ symbol p = "BTCUSD" /\ baseAsset p = "XBT" /\ quoteAsset p = "USD"
    /\ exchange p = "Kraken".
Proof.
  intros Hspot. unfold kraken_listing. rewrite kraken_fetch_json.
  unfold kraken_normalize. simpl. rewrite Hspot. simpl.
  eexists _, _. split; [reflexivity|]. simpl.
  split; [reflexivity|]. repeat split.
Qed.

Lemma kraken_example_xxbt_zusd_witness :
  exists r p,
    KrakenFetcher.fetch_pairs ["USD"]
      (kraken_listing
         [("XXBTZUSD",
           {| KrakenFetcher.raw_base := Some "XXBT";
              KrakenFetcher.raw_quote := Some "ZUSD";
              KrakenFetcher.raw_altname := Some "XBTUSD";
              KrakenFetcher.raw_wsname := Some "BTC/USD" |})])
    = Some r
    /\ all_pairs r = [p]
    /\ results r = [("USD", [p])]
    /\ total r = 1
    /\ symbol p = "BTCUSD" /\ baseAsset p = "XBT" /\ quoteAsset p = "USD"
    /\ exchange p = "Kraken".
Proof.
  apply (kraken_example_xxbt_zusd "XXBTZUSD" (Some "XBTUSD")). reflexivity.
Defined.

(** ** C3: the quote asset recorded by Kraken's matcher *)




(** ** C4: the display symbol *)

(** C4. An error-free Kraken answer is fetched successfully. The pairs of a
    successful Kraken fetch are, in order, those made from the kept entries,
    and the symbol of each is its wsname without the slashes when the entry
    has a non-empty wsname, otherwise its altname when the entry has one,
    otherwise the pair name under which it is listed. *)
Theorem kraken_symbol_prefers_wsname (quote_assets : list string) :
  (forall entries,
     exists r,
       KrakenFetcher.fetch_pairs quote_assets (kraken_listing entries) = Some r)
  /\ (forall reply r,
        KrakenFetcher.fetch_pairs quote_assets reply = Some r ->
        exists entries,
          reply = kraken_listing entries
          /\ Forall2
               (fun entry p =>
                  kraken_pair p = Some (fst entry)
                  /\ symbol p
                     = match KrakenFetcher.raw_wsname (snd entry) with
                       | Some (String c w) => PyStr.remove_char "/" (String c w)
                       | _ =>
                           match KrakenFetcher.raw_altname (snd entry) with
                           | Some alt => alt
                           | None => fst entry
                           end
                       end)
               (List.filter (kraken_keeps quote_assets) entries)
               (all_pairs r)).
Proof.
  split; [apply kraken_fetch_total|].
  intros reply r H. apply kraken_fetch_some in H as (entries & -> & ->).
  exists entries. split; [reflexivity|]. simpl.
  eapply Forall2_impl; [apply kraken_kept_pairs|].
  intros [pair_name [b q alt ws]] p (a & _ & ->). simpl.
  split; [reflexivity|].
  destruct ws as [[|c w]|], alt as [alt|]; reflexivity.
Qed.

Lemma kraken_symbol_prefers_wsname_witness :
  exists r,
    KrakenFetcher.fetch_pairs ["USDT"; "USD"] (kraken_listing sample_kraken_entries)
    = Some r
    /\ map symbol (all_pairs r) = ["XBTUSD"; "ETHUSDT"; "DOTUSD"]
    /\ Forall2
         (fun entry p =>
            kraken_pair p = Some (fst entry)
            /\ symbol p
               = match KrakenFetcher.raw_wsname (snd entry) with
                 | Some (String c w) => PyStr.remove_char "/" (String c w)
                 | _ =>
                     match KrakenFetcher.raw_altname (snd entry) with
                     | Some alt => alt
                     | None => fst entry
                     end
                 end)
         (List.filter (kraken_keeps ["USDT"; "USD"]) sample_kraken_entries)
         (all_pairs r).
Proof.
  destruct (kraken_symbol_prefers_wsname ["USDT"; "USD"]) as (Htotal & Hsome).
  destruct (Htotal sample_kraken_entries) as [r Hr].
  exists r. split; [exact Hr|].
  destruct (Hsome _ _ Hr) as (entries & Hreply & Hall).
  injection Hreply as <-. split; [|exact Hall].
  vm_compute in Hr. injection Hr as <-. reflexivity.
Defined.

(** ** C5: [.d] contracts *)

Lemma grouped_bucket (ks : list string) (ps : list TradingPair)
    (asset : string) (bucket : list TradingPair) :
  PyDict.get asset (grouped ks ps) = Some bucket ->
  In asset ks /\ bucket = quoted_in ps asset.
Proof.
  unfold grouped. rewrite get_keyed.
  destruct (PyStr.in_list asset ks) eqn:E; [|discriminate].
  intros [= <-]. split; [now apply in_list_In | reflexivity].
Qed.

Lemma quoted_in_incl (ps : list TradingPair) (a : string) (p : TradingPair) :
  In p (quoted_in ps a) -> In p ps.
Proof. unfold quoted_in. intros H. now apply filter_In in H. Qed.

(** C5. An error-free Kraken answer is fetched successfully. In a successful
    Kraken fetch no pair of the flat list and no pair of a per-asset list
    comes from an entry whose pair name contains [.d], whatever the quote and
    base codes of that entry; the result is the one the same answer gives
    once those entries are removed from it. *)
Theorem kraken_dot_d_pairs_excluded (quote_assets : list string) :
  (forall entries,
     exists r,
       KrakenFetcher.fetch_pairs quote_assets (kraken_listing entries) = Some r)
  /\ (forall reply r,
        KrakenFetcher.fetch_pairs quote_assets reply = Some r ->
        exists entries,
          reply = kraken_listing entries
          /\ (forall pair_name,
                PyStr.contains ".d" pair_name = true ->
                (forall p, In p (all_pairs r) -> kraken_pair p <> Some pair_name)
                /\ (forall asset bucket p,
                      PyDict.get asset (results r) = Some bucket ->
                      In p bucket -> kraken_pair p <> Some pair_name))
          /\ KrakenFetcher.fetch_pairs quote_assets
               (kraken_listing
                  (List.filter (fun e => negb (PyStr.contains ".d" (fst e)))
                               entries))
             = Some r).
Proof.
  split; [apply kraken_fetch_total|].
  intros reply r H. apply kraken_fetch_some in H as (entries & -> & ->).
  exists entries. split; [reflexivity|].
  assert (Hall : forall pair_name p,
             PyStr.contains ".d" pair_name = true ->
             In p (omap (kraken_normalize quote_assets) entries) ->
             kraken_pair p <> Some pair_name).
  { intros pair_name p Hd Hp Hk.
    apply kraken_omap_no_dot_d in Hp as (n & i & _ & Hk' & Hc). congruence. }
  split.
  - intros pair_name Hd. split.
    + intros p Hp. now apply Hall.
    + intros asset bucket p Hget Hp. simpl in Hget.
      apply grouped_bucket in Hget as [_ ->].
      apply quoted_in_incl in Hp. now apply Hall.
  - unfold kraken_listing. rewrite kraken_fetch_json.
    now rewrite kraken_omap_spot_only.
Qed.

Lemma kraken_dot_d_pairs_excluded_witness :
  exists r,
    KrakenFetcher.fetch_pairs ["USDT"; "USD"] (kraken_listing sample_kraken_entries)
    = Some r
    /\ map kraken_pair (all_pairs r)
       = [Some "XXBTZUSD"; Some "ETHUSDT"; Some "DOTUSD"]
    /\ forall p, In p (all_pairs r) -> kraken_pair p <> Some "XBTUSD.d".
Proof.
  destruct (kraken_dot_d_pairs_excluded ["USDT"; "USD"]) as (Htotal & Hsome).
  destruct (Htotal sample_kraken_entries) as [r Hr].
  exists r. split; [exact Hr|].
  destruct (Hsome _ _ Hr) as (entries & _ & Hex & _). split.
  - vm_compute in Hr. injection Hr as <-. reflexivity.
  - apply (Hex "XBTUSD.d"). reflexivity.
Defined.

(** ** C6: Binance *)

Lemma binance_keeps_iff (quote_assets : list string)
    (s : BinanceFetcher.symbol_record) :
  binance_keeps quote_assets s = true
  <-> exists q,
        BinanceFetcher.raw_quoteAsset s = Some q /\ In q quote_assets
        /\ BinanceFetcher.raw_status s = Some "TRADING".
Proof.
  unfold binance_keeps. split.
  - destruct (BinanceFetcher.raw_quoteAsset s) as [q|]; [|discriminate].
    destruct (BinanceFetcher.raw_status s) as [status|]; [|discriminate].
    intros H. apply andb_true_iff in H as [Hq Hs].
    apply in_list_In in Hq. apply String.eqb_eq in Hs. subst. eauto.
  - intros (q & -> & Hq & ->). apply in_list_In in Hq. now rewrite Hq.
Qed.

(** C6. A Binance listing whose records have all their keys is fetched
    successfully; the pairs of a successful fetch are, in order, those of the
    records whose quote asset is a requested code and whose status is
    TRADING, each with the symbol, base asset and quote asset of its record
    as they are; the ETHUSDT record requested under USDT comes out so. *)
Theorem binance_keeps_trading_pairs_of_requested_quotes
    (quote_assets : list string) (syms : list BinanceFetcher.symbol_record) :
  (Forall binance_complete syms ->
   exists r, BinanceFetcher.fetch_pairs quote_assets (binance_listing syms) = Some r)
  /\ (forall r,
        BinanceFetcher.fetch_pairs quote_assets (binance_listing syms) = Some r ->
        Forall2 verbatim
                (List.filter (binance_keeps quote_assets) syms) (all_pairs r))
  /\ (forall s,
        binance_keeps quote_assets s = true
        <-> exists q,
              BinanceFetcher.raw_quoteAsset s = Some q /\ In q quote_assets
              /\ BinanceFetcher.raw_status s = Some "TRADING")
  /\ (exists r,
        BinanceFetcher.fetch_pairs ["USDT"]
          (binance_listing
             [{| BinanceFetcher.raw_symbol := Some "ETHUSDT";
                 BinanceFetcher.raw_baseAsset := Some "ETH";
                 BinanceFetcher.raw_quoteAsset := Some "USDT";
                 BinanceFetcher.raw_status := Some "TRADING" |}])
        = Some r
        /\ all_pairs r
           = [{| symbol := "ETHUSDT"; baseAsset := "ETH"; quoteAsset := "USDT";
                 exchange := "Binance";
                 kraken_pair := None; wsname := None; altname := None |}]).
Proof.
  unfold binance_listing. rewrite binance_fetch_json.
  pose proof (binance_collect quote_assets syms) as Hc.
  split; [|split; [|split]].
  - intros Hwf. destruct (collect _ syms) as [new|e]; [eauto|].
    exfalso. apply existsb_exists in Hc as (s & Hin & Hm).
    rewrite List.Forall_forall in Hwf.
    rewrite (binance_complete_not_malformed quote_assets s (Hwf s Hin)) in Hm.
    discriminate.
  - intros r Hr. destruct (collect _ syms) as [new|e]; [|discriminate].
    injection Hr as <-. simpl. tauto.
  - apply binance_keeps_iff.
  - eexists. split; [vm_compute; reflexivity | reflexivity].
Qed.

Lemma binance_keeps_trading_pairs_of_requested_quotes_witness :
  exists r,
    BinanceFetcher.fetch_pairs ["USDT"; "USDC"] (binance_listing sample_binance_symbols)
    = Some r
    /\ map symbol (all_pairs r) = ["BTCUSDT"; "BTCUSDC"]
    /\ Forall2 verbatim
               (List.filter (binance_keeps ["USDT"; "USDC"]) sample_binance_symbols)
               (all_pairs r).
Proof.
  destruct (binance_keeps_trading_pairs_of_requested_quotes
              ["USDT"; "USDC"] sample_binance_symbols) as (Hsome & Hall & _).
  destruct Hsome as [r Hr].
  { repeat constructor; simpl; eauto. }
  exists r. split; [exact Hr|]. split; [|now apply Hall].
  vm_compute in Hr. injection Hr as <-. reflexivity.
Defined.

(** ** C7: failed fetches *)

(** C7. A fetch whose request fails, whose answer has an error status or is
    not JSON, or whose document lacks the keys that are read, returns [None];
    for Binance so does a listing with any record lacking a key the loop
    reads, whatever was gathered before it, and only such a listing; for
    Kraken so does an answer with a non-empty error field. A well-shaped
    answer matching no pair returns a result with an empty flat list and
    total 0, which is not [None]. With both exchanges chosen each fetch is
    made with its own answer, so that the successful fetch of one exchange
    is reported beside the [None] of the other. *)
Theorem failed_fetch_is_no_result (quote_assets : list string) :
  (forall reply,
     reply = RequestFailed \/ reply = BadStatus \/ reply = BadJson
     \/ reply = Json {| BinanceFetcher.symbols := None |} ->
     BinanceFetcher.fetch_pairs quote_assets reply = None)
  /\ (forall syms,
        existsb (binance_malformed quote_assets) syms = true
        <-> BinanceFetcher.fetch_pairs quote_assets (binance_listing syms) = None)
  /\ (forall reply,
        reply = RequestFailed \/ reply = BadStatus \/ reply = BadJson
        \/ (exists res, reply = Json {| KrakenFetcher.error := None;
                                        KrakenFetcher.result := res |})
        \/ (exists msg msgs res,
              reply = Json {| KrakenFetcher.error := Some (msg :: msgs);
                              KrakenFetcher.result := res |})
        \/ reply = Json {| KrakenFetcher.error := Some [];
                           KrakenFetcher.result := None |} ->
        KrakenFetcher.fetch_pairs quote_assets reply = None)
  /\ (forall syms,
        existsb (binance_malformed quote_assets) syms = false ->
        List.filter (binance_keeps quote_assets) syms = [] ->
        exists r,
          BinanceFetcher.fetch_pairs quote_assets (binance_listing syms) = Some r
          /\ all_pairs r = [] /\ total r = 0)
  /\ (forall entries,
        List.filter (kraken_keeps quote_assets) entries = [] ->
        exists r,
          KrakenFetcher.fetch_pairs quote_assets (kraken_listing entries) = Some r
          /\ all_pairs r = [] /\ total r = 0)
  /\ (forall binance_reply kraken_reply,
        fetch_all ["binance"; "kraken"] quote_assets binance_reply kraken_reply
        = [BinanceFetcher.fetch_pairs quote_assets binance_reply;
           KrakenFetcher.fetch_pairs quote_assets kraken_reply])
  /\ (forall binance_reply kraken_reply r,
        KrakenFetcher.fetch_pairs quote_assets kraken_reply = Some r ->
        BinanceFetcher.fetch_pairs quote_assets binance_reply = None ->
        fetch_all ["binance"; "kraken"] quote_assets binance_reply kraken_reply
        = [None; Some r]
        /\ any_result
             (fetch_all ["binance"; "kraken"] quote_assets binance_reply kraken_reply)
           = true)
  /\ (forall binance_reply kraken_reply r,
        BinanceFetcher.fetch_pairs quote_assets binance_reply = Some r ->
        KrakenFetcher.fetch_pairs quote_assets kraken_reply = None ->
        fetch_all ["binance"; "kraken"] quote_assets binance_reply kraken_reply
        = [Some r; None]
        /\ any_result
             (fetch_all ["binance"; "kraken"] quote_assets binance_reply kraken_reply)
           = true).
Proof.
  repeat apply conj.
  - intros reply [->|[->|[->| ->]]]; reflexivity.
  - intros syms. unfold binance_listing. rewrite binance_fetch_json.
    pose proof (binance_collect quote_assets syms) as Hc.
    destruct (collect _ syms) as [new|e].
    + destruct Hc as [Hm _]. rewrite Hm. split; discriminate.
    + rewrite Hc. split; reflexivity.
  - intros reply
      [->|[->|[->|[[res ->]|[(msg & msgs & res & ->)| ->]]]]]; reflexivity.
  - intros syms Hm Hk. unfold binance_listing. rewrite binance_fetch_json.
    pose proof (binance_collect quote_assets syms) as Hc.
    destruct (collect _ syms) as [new|e]; [|congruence].
    destruct Hc as (_ & Hall & _). rewrite Hk in Hall.
    apply Forall2_nil_inv_l in Hall. subst new.
    eexists. split; [reflexivity|]. split; reflexivity.
  - intros entries Hk. unfold kraken_listing. rewrite kraken_fetch_json.
    pose proof (kraken_kept_pairs quote_assets entries) as Hall.
    rewrite Hk in Hall. apply Forall2_nil_inv_l in Hall. rewrite Hall.
    eexists. split; [reflexivity|]. split; reflexivity.
  - reflexivity.
  - intros binance_reply kraken_reply r Hk Hb.
    unfold fetch_all. simpl. rewrite Hk, Hb. split; reflexivity.
  - intros binance_reply kraken_reply r Hb Hk.
    unfold fetch_all. simpl. rewrite Hk, Hb. split; reflexivity.
Qed.

Lemma failed_fetch_is_no_result_witness :
  BinanceFetcher.fetch_pairs ["USDT"] BadStatus = None
  /\ BinanceFetcher.fetch_pairs ["USDT"]
       (binance_listing
          (sample_binance_symbols
           ++ [{| BinanceFetcher.raw_symbol := Some "ETHUSDT";
                  BinanceFetcher.raw_baseAsset := None;
                  BinanceFetcher.raw_quoteAsset := Some "USDT";
                  BinanceFetcher.raw_status := Some "TRADING" |}]))
     = None
  /\ KrakenFetcher.fetch_pairs ["USDT"]
       (Json {| KrakenFetcher.error := Some ["EGeneral:Internal error"];
                KrakenFetcher.result := Some sample_kraken_entries |})
     = None
  /\ (exists r,
        BinanceFetcher.fetch_pairs ["EUR"] (binance_listing sample_binance_symbols)
        = Some r
        /\ all_pairs r = [] /\ total r = 0)
  /\ (exists r,
        KrakenFetcher.fetch_pairs ["EUR"] (kraken_listing sample_kraken_entries)
        = Some r
        /\ all_pairs r = [] /\ total r = 0)
  /\ any_result
       (fetch_all ["binance"; "kraken"] ["USD"] RequestFailed
          (kraken_listing sample_kraken_entries))
     = true.
Proof.
  destruct (failed_fetch_is_no_result ["USDT"]) as (B1 & B2 & K1 & _).
  destruct (failed_fetch_is_no_result ["EUR"]) as (_ & _ & _ & Z1 & Z2 & _).
  destruct (failed_fetch_is_no_result ["USD"]) as (_ & _ & _ & _ & _ & _ & M & _).
  repeat apply conj.
  - apply B1. right. left. reflexivity.
  - apply B2. reflexivity.
  - apply K1. do 4 right. left. eauto.
  - apply Z1; reflexivity.
  - apply Z2. reflexivity.
  - eapply M; [vm_compute; reflexivity | reflexivity].
Defined.

(** ** C8: common pairs *)

Lemma pairs_set_of_spec (r : FetchResult) (x : string) :
  x ∈ pairs_set_of r <-> exists p, In p (all_pairs r) /\ x = normalized p.
Proof.
  unfold pairs_set_of.
  assert (G : forall (l : list TradingPair) (acc : gset string),
             x ∈ fold_left (fun acc pair => acc ∪ {[ normalized pair ]}) l acc
             <-> x ∈ acc \/ exists p, In p l /\ x = normalized p).
  { induction l as [|q l IH]; intros acc; simpl.
    - split; [auto | intros [H|(p & [] & _)]; exact H].
    - rewrite IH, elem_of_union, elem_of_singleton. split.
      + intros [[H| ->]|(p & Hp & ->)]; eauto.
      + intros [H|(p & [<-|Hp] & ->)]; eauto. }
  rewrite G. split; [intros [H|H]; [now apply not_elem_of_empty in H | exact H] | auto].
Qed.

(** C8. Whenever the common-pairs screen is computed, the dictionary of
    sets has exactly two exchanges, and the number of common pairs plus the
    number of pairs only on the first exchange is the number of pairs of the
    first, likewise for the second. It is computed for any two results of
    differently named exchanges, over their sets of BASE/QUOTE strings. *)
Theorem common_pairs_cardinalities :
  (forall all_results rep,
     common_pairs all_results = Some rep ->
     exists s0 s1,
       exchanges_pairs all_results
       = [(first_exchange rep, s0); (second_exchange rep, s1)]
       /\ size (common rep) + size (only_first rep) = size s0
       /\ size (common rep) + size (only_second rep) = size s1)
  /\ (forall r1 r2,
        fr_exchange r1 <> fr_exchange r2 ->
        exists rep,
          common_pairs [Some r1; Some r2] = Some rep
          /\ exchanges_pairs [Some r1; Some r2]
             = [(fr_exchange r1, pairs_set_of r1); (fr_exchange r2, pairs_set_of r2)]
          /\ size (common rep) + size (only_first rep) = size (pairs_set_of r1)
          /\ size (common rep) + size (only_second rep) = size (pairs_set_of r2))
  /\ (forall r x,
        x ∈ pairs_set_of r <-> exists p, In p (all_pairs r) /\ x = normalized p).
Proof.
  split; [|split].
  - intros all_results rep H. unfold common_pairs in H.
    destruct (1 <? length all_results)%nat; [|discriminate].
    unfold PyDict.items in H.
    destruct (exchanges_pairs all_results) as [|[e0 s0] [|[e1 s1] [|]]];
      try discriminate.
    injection H as <-. simpl. exists s0, s1. split; [reflexivity|].
    split; [apply size_inter_difference|].
    rewrite (comm_L (∩) s0 s1). apply size_inter_difference.
  - intros r1 r2 Hne.
    assert (He : exchanges_pairs [Some r1; Some r2]
                 = [(fr_exchange r1, pairs_set_of r1);
                    (fr_exchange r2, pairs_set_of r2)]).
    { unfold exchanges_pairs. simpl.
      apply not_eq_sym, String.eqb_neq in Hne. now rewrite Hne. }
    unfold common_pairs. simpl. unfold PyDict.items. rewrite He.
    eexists. split; [reflexivity|]. split; [reflexivity|]. simpl.
    split; [apply size_inter_difference|].
    rewrite (comm_L (∩) (pairs_set_of r1)). apply size_inter_difference.
  - apply pairs_set_of_spec.
Qed.

Lemma common_pairs_cardinalities_witness :
  exists rb rk rep,
    BinanceFetcher.fetch_pairs ["USDT"; "USD"] (binance_listing sample_binance_symbols)
    = Some rb
    /\ KrakenFetcher.fetch_pairs ["USDT"; "USD"] (kraken_listing sample_kraken_entries)
       = Some rk
    /\ common_pairs [Some rb; Some rk] = Some rep
    /\ size (common rep) + size (only_first rep) = size (pairs_set_of rb)
    /\ size (common rep) + size (only_second rep) = size (pairs_set_of rk).
Proof.
  set (rb := result_of "Binance" ["USDT"; "USD"]
               [{| symbol := "BTCUSDT"; baseAsset := "BTC";
                   quoteAsset := "USDT"; exchange := "Binance";
                   kraken_pair := None; wsname := None; altname := None |}]).
  set (rk := result_of "Kraken" ["USDT"; "USD"]
               (omap (kraken_normalize ["USDT"; "USD"]) sample_kraken_entries)).
  destruct (proj1 (proj2 common_pairs_cardinalities) rb rk)
    as (rep & Hrep & _ & H1 & H2); [discriminate|].
  exists rb, rk, rep. split; [vm_compute; reflexivity|].
  split; [apply kraken_fetch_json|].
  split; [exact Hrep|]. split; [exact H1 | exact H2].
Defined.

(** ** C9: the TradingView watchlists *)

(** C9, counterexample. For Binance's BTCUSDT and BTCUSDC, requested under
    USDT and USDC in that order, the file lists BTCUSDT before BTCUSDC: the
    lines are not in symbol order across the file. *)
Lemma tradingview_file_not_sorted_across_codes :
  exists r,
    BinanceFetcher.fetch_pairs ["USDT"; "USDC"]
      (binance_listing
         [{| BinanceFetcher.raw_symbol := Some "BTCUSDT";
             BinanceFetcher.raw_baseAsset := Some "BTC";
             BinanceFetcher.raw_quoteAsset := Some "USDT";
             BinanceFetcher.raw_status := Some "TRADING" |};
          {| BinanceFetcher.raw_symbol := Some "BTCUSDC";
             BinanceFetcher.raw_baseAsset := Some "BTC";
             BinanceFetcher.raw_quoteAsset := Some "USDC";
             BinanceFetcher.raw_status := Some "TRADING" |}])
    = Some r
    /\ tv_exchange_lines ["USDT"; "USDC"] r
       = ["BINANCE:BTCUSDT" +:+ newline; "BINANCE:BTCUSDC" +:+ newline]
    /\ map symbol (tv_pairs ["USDT"; "USDC"] r) = ["BTCUSDT"; "BTCUSDC"]
    /\ ~ symbols_sorted (tv_pairs ["USDT"; "USDC"] r).
Proof.
  eexists. split; [vm_compute; reflexivity|].
  split; [vm_compute; reflexivity|]. split; [vm_compute; reflexivity|].
  intros Hs. vm_compute in Hs.
  apply Sorted_inv in Hs as [_ Hhd]. apply HdRel_inv in Hhd. discriminate Hhd.
Qed.

(** C9, amended. The lines written for an exchange are the blocks of the
    requested quote codes, in request order; the block of a code has one line
    EXCHANGE_NAME_UPPERCASE:symbol per pair of that code's list, sorted by
    symbol within the block, so that a file for one code is sorted throughout;
    for the result of a fetch under distinct codes the file has one line per
    fetched pair. The combined file is the per-exchange line lists of the
    successful results one after the other, and is written together with the
    per-exchange files when two exchanges were queried. *)
Theorem tradingview_lines_sorted_within_each_code
    (quote_assets : list string) (r : FetchResult) :
  tv_exchange_lines quote_assets r
  = map (tv_line (PyStr.upper (fr_exchange r))) (tv_pairs quote_assets r)
  /\ (exists blocks,
        tv_pairs quote_assets r = concat blocks
        /\ Forall2 (fun asset block =>
                      symbols_sorted block
                      /\ Permutation block
                           (PyDict.get_default asset [] (results r)))
                   quote_assets blocks)
  /\ (forall asset, symbols_sorted (tv_pairs [asset] r))
  /\ (fetched quote_assets r -> NoDup quote_assets ->
      Permutation (tv_pairs quote_assets r) (all_pairs r))
  /\ (forall all_results,
        tv_combined_lines quote_assets all_results
        = concat (map (fun o =>
                         match o with
                         | Some r' => tv_exchange_lines quote_assets r'
                         | None => []
                         end)
                      all_results))
  /\ (forall timestamp r',
        map snd (tradingview_files timestamp quote_assets [Some r; Some r'])
        = [tv_exchange_lines quote_assets r;
           tv_exchange_lines quote_assets r';
           tv_exchange_lines quote_assets r ++ tv_exchange_lines quote_assets r'])
  /\ PyStr.upper BinanceFetcher.name = "BINANCE"
  /\ PyStr.upper KrakenFetcher.name = "KRAKEN".
Proof.
  repeat apply conj.
  - apply tv_exchange_lines_pairs.
  - apply tv_pairs_blocks.
  - intros asset. unfold tv_pairs. simpl. rewrite app_nil_r.
    apply sorted_by_symbol_sorted.
  - intros Hf Hnd. apply fetched_result_of in Hf as (name & ps & -> & Hall).
    now apply tv_pairs_perm.
  - intros all_results. unfold tv_combined_lines. apply flat_map_concat_map.
  - intros timestamp r'. unfold tradingview_files, tv_combined_lines. simpl.
    now rewrite app_nil_r.
  - reflexivity.
  - reflexivity.
Qed.

Lemma tradingview_lines_sorted_within_each_code_witness :
  exists r,
    KrakenFetcher.fetch_pairs ["USDT"; "USD"] (kraken_listing sample_kraken_entries)
    = Some r
    /\ tv_exchange_lines ["USDT"; "USD"] r
       = ["KRAKEN:ETHUSDT" +:+ newline; "KRAKEN:DOTUSD" +:+ newline;
          "KRAKEN:XBTUSD" +:+ newline]
    /\ Permutation (tv_pairs ["USDT"; "USD"] r) (all_pairs r).
Proof.
  eexists. split; [vm_compute; reflexivity|]. split; [vm_compute; reflexivity|].
  match goal with
  | |- Permutation (tv_pairs _ ?r) _ =>
      destruct (tradingview_lines_sorted_within_each_code ["USDT"; "USD"] r)
        as (_ & _ & _ & Hperm & _)
  end.
  apply Hperm.
  - right. exists (kraken_listing sample_kraken_entries). vm_compute. reflexivity.
  - repeat constructor; rewrite ?list_elem_of_In; simpl;
      intros H; repeat destruct H as [H|H]; try discriminate H; exact H.
Defined.

(** ** C10: totals and per-asset lists *)

(** C10. In the result of a fetch of either exchange, the total is the
    length of the flat list, which is the sum, over the requested quote codes
    taken once each, of the lengths of the per-asset lists; the per-asset
    lists are keyed by exactly those codes, and every pair under a key has
    that key as its quote asset. The flat list has exactly one pair per kept
    record, in order: per Binance record in a requested quote with status
    TRADING, and per Kraken entry that is no [.d] contract and whose quote
    resolves from a requested code, recorded under the first such code. *)
Theorem fetch_result_counts (quote_assets : list string) (r : FetchResult) :
  fetched quote_assets r ->
  total r = length (all_pairs r)
  /\ length (all_pairs r)
     = list_sum (map (fun asset =>
                        length (PyDict.get_default asset [] (results r)))
                     (first_occurrences quote_assets))
  /\ length (all_pairs r) = bucket_total (results r)
  /\ PyDict.keys (results r) = first_occurrences quote_assets
  /\ (NoDup quote_assets ->
      length (all_pairs r)
      = list_sum (map (fun asset =>
                         length (PyDict.get_default asset [] (results r)))
                      quote_assets))
  /\ (forall asset bucket,
        PyDict.get asset (results r) = Some bucket ->
        In asset quote_assets
        /\ Forall (fun p => quoteAsset p = asset) bucket)
  /\ (forall syms,
        BinanceFetcher.fetch_pairs quote_assets (binance_listing syms) = Some r ->
        Forall2 verbatim (List.filter (binance_keeps quote_assets) syms) (all_pairs r)
        /\ length (all_pairs r)
           = length (List.filter (binance_keeps quote_assets) syms))
  /\ (forall entries,
        KrakenFetcher.fetch_pairs quote_assets (kraken_listing entries) = Some r ->
        Forall2 (fun entry p =>
                   kraken_pair p = Some (fst entry)
                   /\ find (resolves_to (kraken_quote (snd entry))) quote_assets
                      = Some (quoteAsset p))
                (List.filter (kraken_keeps quote_assets) entries) (all_pairs r)
        /\ length (all_pairs r)
           = length (List.filter (kraken_keeps quote_assets) entries)).
Proof.
  intros Hf. pose proof Hf as Hf'.
  apply fetched_result_of in Hf' as (name & ps & Hr & Hall).
  assert (Hcover : Forall (fun p => In (quoteAsset p) (first_occurrences quote_assets)) ps).
  { eapply List.Forall_impl; [|exact Hall]. intros p. apply first_occurrences_In. }
  assert (Hsum : length ps
                 = bucket_total (grouped (first_occurrences quote_assets) ps)).
  { symmetry. apply bucket_total_grouped; [apply first_occurrences_NoDup | exact Hcover]. }
  repeat apply conj.
  - now subst r.
  - subst r. simpl. rewrite Hsum at 1. apply bucket_total_by_code.
  - now subst r.
  - subst r. simpl. apply keys_keyed.
  - intros Hnd. subst r. simpl. rewrite Hsum at 1.
    rewrite bucket_total_by_code. now rewrite first_occurrences_NoDup_id.
  - intros asset bucket H. subst r. simpl in H.
    apply grouped_bucket in H as [H ->].
    split; [now apply first_occurrences_In | apply quoted_in_quote].
  - intros syms H. unfold binance_listing in H. rewrite binance_fetch_json in H.
    pose proof (binance_collect quote_assets syms) as Hc.
    destruct (collect _ syms) as [new|e]; [|discriminate].
    injection H as <-. simpl. destruct Hc as (_ & Hc & _).
    split; [exact Hc|]. symmetry. eapply Forall2_length, Hc.
  - intros entries H. unfold kraken_listing in H. rewrite kraken_fetch_json in H.
    injection H as <-. simpl. split.
    + eapply Forall2_impl; [apply kraken_kept_pairs|].
      intros entry p (a & Hfind & ->). split; [reflexivity | exact Hfind].
    + symmetry. eapply Forall2_length, kraken_kept_pairs.
Qed.

Lemma fetch_result_counts_witness :
  exists r,
    KrakenFetcher.fetch_pairs ["USD"; "USDT"; "USD"]
      (kraken_listing sample_kraken_entries)
    = Some r
    /\ total r = 3
    /\ total r = length (all_pairs r)
    /\ length (all_pairs r) = bucket_total (results r)
    /\ PyDict.keys (results r) = ["USD"; "USDT"].
Proof.
  eexists. split; [vm_compute; reflexivity|]. split; [reflexivity|].
  match goal with
  | |- total ?r = _ /\ _ =>
      destruct (fetch_result_counts ["USD"; "USDT"; "USD"] r)
        as (H1 & _ & H3 & H4 & _)
  end.
  - right. exists (kraken_listing sample_kraken_entries). vm_compute. reflexivity.
  - split; [exact H1|]. split; [exact H3 | exact H4].
Defined.

(** * Further properties of the fetchers *)

(** ** Kraken's base assets *)

Lemma normalize_base_not_legacy (code : string) :
  legacy_prefixedb (KrakenFetcher.normalize_base code) = false.
Proof.
  rewrite normalize_base_eq. destruct (legacy_prefixedb code) eqn:E; [|exact E].
  unfold legacy_prefixedb, PyStr.len in *. apply andb_true_iff in E as [Hlen _].
  apply Nat.eqb_eq in Hlen. destruct code as [|c t]; [discriminate|].
  cbn [String.length PyStr.slice_from_1] in *. injection Hlen as Hlen.
  rewrite Hlen. reflexivity.
Qed.

(** X1. Every pair of a successful Kraken fetch has a base asset that is no
    longer a four-character code starting with X or Z, so that normalizing it
    again changes nothing; normalizing any code twice is normalizing it
    once, and removes at most one character. *)
Theorem kraken_base_asset_is_normal_form (quote_assets : list string) :
  (forall reply r,
     KrakenFetcher.fetch_pairs quote_assets reply = Some r ->
     Forall (fun p =>
               ~ legacy_prefixed (baseAsset p)
               /\ KrakenFetcher.normalize_base (baseAsset p) = baseAsset p)
            (all_pairs r))
  /\ (forall code,
        KrakenFetcher.normalize_base (KrakenFetcher.normalize_base code)
        = KrakenFetcher.normalize_base code
        /\ String.length code
           <= S (String.length (KrakenFetcher.normalize_base code))
        /\ String.length (KrakenFetcher.normalize_base code) <= String.length code).
Proof.
  assert (Hidem : forall code,
             KrakenFetcher.normalize_base (KrakenFetcher.normalize_base code)
             = KrakenFetcher.normalize_base code).
  { intros code. rewrite (normalize_base_eq (KrakenFetcher.normalize_base code)).
    now rewrite normalize_base_not_legacy. }
  split.
  - intros reply r H. apply kraken_fetch_some in H as (entries & _ & ->). simpl.
    apply List.Forall_forall. intros p Hp.
    assert (Hb : exists code, baseAsset p = KrakenFetcher.normalize_base code).
    { pose proof (kraken_kept_pairs quote_assets entries) as Hall.
      revert Hp. induction Hall as [|e q es qs (a & _ & ->) _ IH]; [intros []|].
      intros [<-|Hp]; [eexists; reflexivity | now apply IH]. }
    destruct Hb as [code ->]. split; [|apply Hidem].
    rewrite legacy_prefixed_iff, normalize_base_not_legacy. discriminate.
  - intros code. split; [apply Hidem|].
    rewrite normalize_base_eq. destruct (legacy_prefixedb code); [|lia].
    destruct code; simpl; lia.
Qed.

Lemma kraken_base_asset_is_normal_form_witness :
  exists r,
    KrakenFetcher.fetch_pairs ["USDT"; "USD"] (kraken_listing sample_kraken_entries)
    = Some r
    /\ map baseAsset (all_pairs r) = ["XBT"; "ETH"; "DOT"]
    /\ Forall (fun p =>
                 ~ legacy_prefixed (baseAsset p)
                 /\ KrakenFetcher.normalize_base (baseAsset p) = baseAsset p)
              (all_pairs r).
Proof.
  destruct (kraken_fetch_total ["USDT"; "USD"] sample_kraken_entries) as [r Hr].
  exists r. split; [exact Hr|]. split.
  - vm_compute in Hr. injection Hr as <-. reflexivity.
  - exact (proj1 (kraken_base_asset_is_normal_form ["USDT"; "USD"]) _ _ Hr).
Defined.

(** ** Kraken's pairs and the listing they come from *)

Lemma kraken_omap_names (quote_assets : list string)
    (entries : list (string * KrakenFetcher.pair_info)) :
  exists kept,
    sublist kept entries
    /\ map kraken_pair (omap (kraken_normalize quote_assets) entries)
       = map (fun e => Some (fst e)) kept.
Proof.
  induction entries as [|[pair_name info] entries (kept & Hsub & Heq)].
  - exists []. split; [constructor | reflexivity].
  - cbn [omap list_omap].
    destruct (kraken_normalize quote_assets (pair_name, info)) as [p|] eqn:E.
    + exists ((pair_name, info) :: kept). split; [now constructor|].
      simpl. rewrite Heq. f_equal.
      unfold kraken_normalize in E.
      destruct (PyStr.contains ".d" pair_name); [discriminate|].
      destruct (find _ quote_assets); [|discriminate].
      now injection E as <-.
    + exists kept. split; [now constructor | exact Heq].
Qed.

(** X2. When the pair names of a Kraken listing are distinct, as the keys of
    a JSON object are, no two pairs of the fetch carry the same
    [kraken_pair]; each pair names the entry it was made from and keeps that
    entry's wsname (or the empty string), its altname (or the pair name) and
    its normalized base, under the exchange name Kraken. *)
Theorem kraken_pairs_trace_their_entries
    (quote_assets : list string) (entries : PyDict.t KrakenFetcher.pair_info)
    (r : FetchResult) :
  KrakenFetcher.fetch_pairs quote_assets (kraken_listing entries) = Some r ->
  (NoDup (PyDict.keys entries) -> NoDup (map kraken_pair (all_pairs r)))
  /\ Forall2
       (fun entry p =>
          kraken_pair p = Some (fst entry)
          /\ wsname p = Some (default "" (KrakenFetcher.raw_wsname (snd entry)))
          /\ altname p
             = Some (default (fst entry) (KrakenFetcher.raw_altname (snd entry)))
          /\ baseAsset p = KrakenFetcher.normalize_base (kraken_base (snd entry))
          /\ exchange p = "Kraken")
       (List.filter (kraken_keeps quote_assets) entries) (all_pairs r).
Proof.
  intros H. unfold kraken_listing in H. rewrite kraken_fetch_json in H.
  injection H as <-. simpl. split.
  - intros Hnd.
    destruct (kraken_omap_names quote_assets entries) as (kept & Hsub & ->).
    assert (Hk : NoDup (map fst kept)).
    { apply (sublist_NoDup _ (PyDict.keys entries)); [exact Hnd|].
      unfold PyDict.keys. apply (fmap_sublist fst), Hsub. }
    rewrite <- (map_map fst Some).
    apply (NoDup_fmap_2 Some) in Hk. exact Hk.
  - eapply Forall2_impl; [apply kraken_kept_pairs|].
    intros entry p (a & _ & ->). repeat split.
Qed.

Lemma kraken_pairs_trace_their_entries_witness :
  exists r,
    KrakenFetcher.fetch_pairs ["USDT"; "USD"] (kraken_listing sample_kraken_entries)
    = Some r
    /\ NoDup (map kraken_pair (all_pairs r)).
Proof.
  destruct (kraken_fetch_total ["USDT"; "USD"] sample_kraken_entries) as [r Hr].
  exists r. split; [exact Hr|].
  apply (proj1 (kraken_pairs_trace_their_entries _ _ _ Hr)).
  refine (bool_decide_unpack (NoDup (PyDict.keys sample_kraken_entries)) _).
  vm_compute. exact I.
Defined.

(** ** The request as a set of codes *)

Lemma in_list_ext (q : string) (l l' : list string) :
  (forall c, In c l <-> In c l') -> PyStr.in_list q l = PyStr.in_list q l'.
Proof.
  intros H. destruct (PyStr.in_list q l') eqn:E.
  - apply in_list_In. apply H. now apply in_list_In.
  - apply in_list_false. intros Hin. apply in_list_false in E. apply E.
    now apply H.
Qed.

Lemma collect_ext {X : Type} (f g : X -> outcome (option TradingPair))
    (xs : list X) :
  (forall x, f x = g x) -> collect f xs = collect g xs.
Proof.
  intros H. induction xs as [|x xs IH]; simpl; [reflexivity|].
  now rewrite H, IH.
Qed.

Lemma binance_normalize_ext (quote_assets quote_assets' : list string) s :
  (forall c, In c quote_assets <-> In c quote_assets') ->
  binance_normalize quote_assets s = binance_normalize quote_assets' s.
Proof.
  intros H. unfold binance_normalize.
  destruct (BinanceFetcher.raw_quoteAsset s) as [q|]; [|reflexivity]. simpl.
  now rewrite (in_list_ext q _ _ H).
Qed.

Lemma first_occurrences_idem (l : list string) :
  first_occurrences (first_occurrences l) = first_occurrences l.
Proof. apply first_occurrences_NoDup_id, first_occurrences_NoDup. Qed.

Lemma kraken_normalize_first_occurrences (quote_assets : list string) entry :
  kraken_normalize (first_occurrences quote_assets) entry
  = kraken_normalize quote_assets entry.
Proof.
  destruct entry as [pair_name info]. unfold kraken_normalize, first_occurrences.
  now rewrite find_insertion_order.
Qed.

Lemma omap_ext_all {X : Type} (f g : X -> option TradingPair) (xs : list X) :
  (forall x, f x = g x) -> omap f xs = omap g xs.
Proof.
  intros H. induction xs as [|x xs IH]; [reflexivity|].
  cbn [omap list_omap]. now rewrite H, IH.
Qed.

(** X3. Naming a quote code more than once in the request changes nothing:
    either fetcher returns for a request exactly what it returns for the
    request with each code kept at its first occurrence only, whatever the
    exchange answered. *)
Theorem repeated_codes_change_nothing (quote_assets : list string) :
  (forall reply,
     BinanceFetcher.fetch_pairs quote_assets reply
     = BinanceFetcher.fetch_pairs (first_occurrences quote_assets) reply)
  /\ (forall reply,
        KrakenFetcher.fetch_pairs quote_assets reply
        = KrakenFetcher.fetch_pairs (first_occurrences quote_assets) reply).
Proof.
  split.
  - intros [| | |[[syms|]]]; try reflexivity.
    rewrite !binance_fetch_json.
    rewrite (collect_ext (binance_normalize (first_occurrences quote_assets))
                         (binance_normalize quote_assets)).
    + destruct (collect _ syms); [|reflexivity].
      unfold result_of. now rewrite first_occurrences_idem.
    + intros s. apply binance_normalize_ext. intros c. apply first_occurrences_In.
  - intros [| | |[[[|msg msgs]|] [entries|]]]; try reflexivity.
    rewrite !kraken_fetch_json. unfold result_of.
    rewrite first_occurrences_idem.
    now rewrite (omap_ext_all _ _ entries (kraken_normalize_first_occurrences quote_assets)).
Qed.

Lemma get_grouped_ext (ks ks' : list string) (ps : list TradingPair) (asset : string) :
  (forall c, In c ks <-> In c ks') ->
  PyDict.get asset (grouped ks ps) = PyDict.get asset (grouped ks' ps).
Proof.
  intros H. unfold grouped. rewrite !get_keyed. now rewrite (in_list_ext asset _ _ H).
Qed.

Lemma first_occurrences_ext (l l' : list string) :
  (forall c, In c l <-> In c l') ->
  forall c, In c (first_occurrences l) <-> In c (first_occurrences l').
Proof. intros H c. rewrite !first_occurrences_In. apply H. Qed.

(** X4. What Binance's fetcher returns depends on the request only as a
    set of codes: two requests naming the same codes, in any order and any
    number of times, fail together or succeed together, with the same flat
    list, the same total and the same list under every code. *)
Theorem binance_request_order_is_irrelevant
    (quote_assets quote_assets' : list string)
    (reply : api_reply BinanceFetcher.exchange_info) :
  (forall c, In c quote_assets <-> In c quote_assets') ->
  match BinanceFetcher.fetch_pairs quote_assets reply,
        BinanceFetcher.fetch_pairs quote_assets' reply with
  | Some r, Some r' =>
      all_pairs r = all_pairs r' /\ total r = total r'
      /\ forall asset,
           PyDict.get asset (results r) = PyDict.get asset (results r')
  | None, None => True
  | _, _ => False
  end.
Proof.
  intros H. destruct reply as [| | |[[syms|]]]; try exact I.
  rewrite !binance_fetch_json.
  rewrite (collect_ext (binance_normalize quote_assets')
                       (binance_normalize quote_assets)).
  - destruct (collect _ syms); [|exact I]. simpl.
    split; [reflexivity|]. split; [reflexivity|].
    intros asset. apply get_grouped_ext. now apply first_occurrences_ext.
  - intros s. apply binance_normalize_ext. intros c. symmetry. apply H.
Qed.

Lemma binance_request_order_is_irrelevant_witness :
  match BinanceFetcher.fetch_pairs ["USDC"; "USDT"]
          (binance_listing sample_binance_symbols),
        BinanceFetcher.fetch_pairs ["USDT"; "USDC"; "USDT"]
          (binance_listing sample_binance_symbols) with
  | Some r, Some r' =>
      all_pairs r = all_pairs r' /\ total r = total r'
      /\ forall asset,
           PyDict.get asset (results r) = PyDict.get asset (results r')
  | None, None => True
  | _, _ => False
  end.
Proof.
  apply (binance_request_order_is_irrelevant
           ["USDC"; "USDT"] ["USDT"; "USDC"; "USDT"]).
  intros c. simpl. tauto.
Defined.

Lemma find_unique_match (f : string -> bool) (l l' : list string) :
  (forall a b, In a l -> In b l -> f a = true -> f b = true -> a = b) ->
  (forall c, In c l <-> In c l') ->
  find f l = find f l'.
Proof.
  intros Huniq Hsame.
  destruct (find f l) as [a|] eqn:E, (find f l') as [a'|] eqn:E'; try reflexivity.
  - apply find_some in E as [Ha Hfa]. apply find_some in E' as [Ha' Hfa'].
    f_equal. apply Huniq; try assumption. now apply Hsame.
  - apply find_some in E as [Ha Hfa].
    pose proof (find_none _ _ E' a (proj1 (Hsame a) Ha)). congruence.
  - apply find_some in E' as [Ha' Hfa'].
    pose proof (find_none _ _ E a' (proj2 (Hsame a') Ha')). congruence.
Qed.

(** X5. For requests made of codes of Kraken's alias table, as all the preset
    menu entries are, what the Kraken fetcher returns depends on the request
    only as a set of codes: same flat list, same total, same list under
    every code. Outside the table the order can matter: an entry quoted in
    ZUSD goes to ZUSD or to USD, whichever is requested first. *)
Theorem kraken_table_request_order_is_irrelevant :
  (forall quote_assets quote_assets' entries,
     Forall (fun c => In c (PyDict.keys KrakenFetcher.asset_map)) quote_assets ->
     (forall c, In c quote_assets <-> In c quote_assets') ->
     exists r r',
       KrakenFetcher.fetch_pairs quote_assets (kraken_listing entries) = Some r
       /\ KrakenFetcher.fetch_pairs quote_assets' (kraken_listing entries) = Some r'
       /\ all_pairs r = all_pairs r' /\ total r = total r'
       /\ forall asset,
            PyDict.get asset (results r) = PyDict.get asset (results r'))
  /\ (exists entries r r',
        KrakenFetcher.fetch_pairs ["ZUSD"; "USD"] (kraken_listing entries) = Some r
        /\ KrakenFetcher.fetch_pairs ["USD"; "ZUSD"] (kraken_listing entries) = Some r'
        /\ map quoteAsset (all_pairs r) = ["ZUSD"]
        /\ map quoteAsset (all_pairs r') = ["USD"]).
Proof.
  split.
  - intros quote_assets quote_assets' entries Htable Hsame.
    unfold kraken_listing. rewrite !kraken_fetch_json.
    eexists _, _. split; [reflexivity|]. split; [reflexivity|].
    assert (Heq : omap (kraken_normalize quote_assets) entries
                  = omap (kraken_normalize quote_assets') entries).
    { apply omap_ext_all. intros [pair_name info]. unfold kraken_normalize.
      destruct (PyStr.contains ".d" pair_name); [reflexivity|].
      rewrite (find_unique_match _ quote_assets quote_assets'); [reflexivity| |exact Hsame].
      rewrite List.Forall_forall in Htable.
      intros a b Ha Hb. apply asset_map_aliases_disjoint; auto. }
    simpl. rewrite Heq. split; [reflexivity|]. split; [reflexivity|].
    intros asset. apply get_grouped_ext. now apply first_occurrences_ext.
  - exists [("XXBTZUSD",
             {| KrakenFetcher.raw_base := Some "XXBT";
                KrakenFetcher.raw_quote := Some "ZUSD";
                KrakenFetcher.raw_altname := None;
                KrakenFetcher.raw_wsname := None |})].
    eexists _, _. split; [vm_compute; reflexivity|].
    split; [vm_compute; reflexivity|]. split; reflexivity.
Qed.

Lemma kraken_table_request_order_is_irrelevant_witness :
  exists r r',
    KrakenFetcher.fetch_pairs ["USD"; "USDT"] (kraken_listing sample_kraken_entries)
    = Some r
    /\ KrakenFetcher.fetch_pairs ["USDT"; "USD"] (kraken_listing sample_kraken_entries)
       = Some r'
    /\ all_pairs r = all_pairs r' /\ total r = total r'
    /\ forall asset,
         PyDict.get asset (results r) = PyDict.get asset (results r').
Proof.
  apply (proj1 kraken_table_request_order_is_irrelevant).
  - repeat constructor; simpl; tauto.
  - intros c. simpl. tauto.
Defined.

(** * Further properties of the menus *)

(** ** Blanks, commas and capitals *)

Lemma lstrip_idem (s : string) : PyText.lstrip (PyText.lstrip s) = PyText.lstrip s.
Proof.
  induction s as [|c t IH]; simpl; [reflexivity|].
  destruct (PyText.is_space c) eqn:E; [exact IH|]. simpl. now rewrite E.
Qed.

Lemma rstrip_idem (s : string) : PyText.rstrip (PyText.rstrip s) = PyText.rstrip s.
Proof.
  induction s as [|c t IH]; simpl; [reflexivity|].
  destruct (PyText.rstrip t) as [|c' t'] eqn:E.
  - destruct (PyText.is_space c) eqn:Ec; simpl; [reflexivity|]. now rewrite Ec.
  - cbn [PyText.rstrip]. cbn [PyText.rstrip] in IH. now rewrite IH.
Qed.

Lemma lstrip_rstrip (s : string) :
  PyText.lstrip (PyText.rstrip s) = PyText.rstrip (PyText.lstrip s).
Proof.
  induction s as [|c t IH]; [reflexivity|].
  cbn [PyText.lstrip PyText.rstrip].
  destruct (PyText.is_space c) eqn:Ec.
  - destruct (PyText.rstrip t) as [|c' t'] eqn:E.
    + rewrite <- IH. reflexivity.
    + cbn [PyText.lstrip]. rewrite Ec. exact IH.
  - destruct (PyText.rstrip t) as [|c' t'] eqn:E;
      cbn [PyText.lstrip PyText.rstrip]; rewrite Ec, ?E; reflexivity.
Qed.

Lemma strip_idem (s : string) : PyText.strip (PyText.strip s) = PyText.strip s.
Proof.
  unfold PyText.strip.
  now rewrite lstrip_rstrip, lstrip_idem, rstrip_idem.
Qed.

Lemma all_chars_lstrip (P : ascii -> bool) (s : string) :
  all_chars P s = true -> all_chars P (PyText.lstrip s) = true.
Proof.
  induction s as [|c t IH]; simpl; [auto|].
  intros H. apply andb_true_iff in H as [Hc Ht].
  destruct (PyText.is_space c); [auto|]. simpl. now rewrite Hc, Ht.
Qed.

Lemma all_chars_rstrip (P : ascii -> bool) (s : string) :
  all_chars P s = true -> all_chars P (PyText.rstrip s) = true.
Proof.
  induction s as [|c t IH]; simpl; [auto|].
  intros H. apply andb_true_iff in H as [Hc Ht]. specialize (IH Ht).
  destruct (PyText.rstrip t) as [|c' t'].
  - destruct (PyText.is_space c); simpl; [reflexivity|]. now rewrite Hc.
  - cbn [all_chars]. cbn [all_chars] in IH. now rewrite Hc, IH.
Qed.

Lemma all_chars_strip (P : ascii -> bool) (s : string) :
  all_chars P s = true -> all_chars P (PyText.strip s) = true.
Proof. intros H. now apply all_chars_rstrip, all_chars_lstrip. Qed.

Lemma all_chars_split (P : ascii -> bool) (sep : ascii) (s : string) :
  all_chars P s = true ->
  Forall (fun w => all_chars P w = true) (PyText.split sep s).
Proof.
  induction s as [|c t IH]; simpl; [repeat constructor|].
  intros H. apply andb_true_iff in H as [Hc Ht]. specialize (IH Ht).
  destruct (Ascii.eqb c sep); [now constructor|].
  destruct (PyText.split sep t) as [|w ws].
  - repeat constructor. simpl. now rewrite Hc.
  - apply Forall_cons in IH as [Hw Hws]. constructor; [|exact Hws].
    simpl. now rewrite Hc, Hw.
Qed.

Lemma split_no_sep (sep : ascii) (s : string) :
  Forall (fun w => PyText.has_char sep w = false) (PyText.split sep s).
Proof.
  induction s as [|c t IH]; simpl; [repeat constructor|].
  destruct (Ascii.eqb c sep) eqn:E; [now constructor|].
  destruct (PyText.split sep t) as [|w ws].
  - repeat constructor. simpl. now rewrite E.
  - apply Forall_cons in IH as [Hw Hws]. constructor; [|exact Hws].
    simpl. now rewrite E, Hw.
Qed.

Lemma has_char_all_chars (c : ascii) (s : string) :
  PyText.has_char c s = false
  <-> all_chars (fun x => negb (Ascii.eqb x c)) s = true.
Proof.
  induction s as [|x t IH]; simpl; [tauto|].
  rewrite orb_false_iff, andb_true_iff, negb_true_iff, IH. reflexivity.
Qed.

Lemma upper_char_idem (c : ascii) :
  PyStr.upper_char (PyStr.upper_char c) = PyStr.upper_char c.
Proof.
  destruct c as [[] [] [] [] [] [] [] []]; reflexivity.
Qed.

Lemma upper_fixed_iff (s : string) :
  PyStr.upper s = s
  <-> all_chars (fun c => Ascii.eqb (PyStr.upper_char c) c) s = true.
Proof.
  induction s as [|c t IH]; simpl; [tauto|].
  rewrite andb_true_iff, Ascii.eqb_eq, <- IH. split.
  - intros [= Hc Ht]. auto.
  - intros [Hc Ht]. now rewrite Hc, Ht.
Qed.

Lemma upper_idem (s : string) : PyStr.upper (PyStr.upper s) = PyStr.upper s.
Proof.
  induction s as [|c t IH]; simpl; [reflexivity|].
  now rewrite upper_char_idem, IH.
Qed.

Lemma truthy_nonempty (s : string) : PyStr.truthy s = true <-> s <> "".
Proof. destruct s; simpl; split; congruence. Qed.

Lemma ascii_only_iff (s : string) :
  PyText.ascii_only s
  <-> all_chars (fun c => (nat_of_ascii c <? 128)%nat) s = true.
Proof.
  unfold PyText.ascii_only. induction s as [|c t IH]; simpl.
  - split; [reflexivity | constructor].
  - rewrite andb_true_iff, Nat.ltb_lt, <- IH. split.
    + intros H. apply Forall_cons in H. exact H.
    + intros [Hc Ht]. now constructor.
Qed.

Lemma upper_char_ascii (c : ascii) :
  (nat_of_ascii c <? 128)%nat = true ->
  (nat_of_ascii (PyStr.upper_char c) <? 128)%nat = true.
Proof.
  destruct c as [[] [] [] [] [] [] [] []]; intros H; try discriminate H;
    reflexivity.
Qed.

Lemma upper_ascii (s : string) :
  PyText.ascii_only s -> PyText.ascii_only (PyStr.upper s).
Proof.
  rewrite !ascii_only_iff. induction s as [|c t IH]; simpl; [auto|].
  intros H. apply andb_true_iff in H as [Hc Ht].
  now rewrite (upper_char_ascii c Hc), IH.
Qed.

Lemma parse_custom_clean (line : string) :
  PyText.ascii_only line -> Forall clean_code (parse_custom line).
Proof.
  intros Hline.
  unfold parse_custom. set (custom := PyStr.upper (PyText.strip line)).
  assert (Hup : Forall (fun w => all_chars (fun c => Ascii.eqb (PyStr.upper_char c) c) w = true)
                       (PyText.split "," custom)).
  { apply all_chars_split. apply upper_fixed_iff. apply upper_idem. }
  assert (Hasc : Forall (fun w => all_chars (fun c => (nat_of_ascii c <? 128)%nat) w = true)
                        (PyText.split "," custom)).
  { apply all_chars_split, ascii_only_iff, upper_ascii, ascii_only_iff.
    apply all_chars_strip, ascii_only_iff, Hline. }
  pose proof (split_no_sep "," custom) as Hsep.
  induction (PyText.split "," custom) as [|a l IH]; simpl; [constructor|].
  apply Forall_cons in Hup as [Ha Hup]. apply Forall_cons in Hsep as [Hc Hsep].
  apply Forall_cons in Hasc as [Hx Hasc].
  destruct (PyStr.truthy (PyText.strip a)) eqn:E; [|now apply IH].
  simpl. constructor; [|now apply IH]. repeat split.
  - now apply truthy_nonempty.
  - apply strip_idem.
  - apply has_char_all_chars, all_chars_strip, has_char_all_chars, Hc.
  - apply upper_fixed_iff, all_chars_strip, Ha.
  - apply ascii_only_iff, all_chars_strip, Hx.
Qed.

(** ** The exchange menu *)

(** X6. The exchange menu passes over every line that, without the blanks
    around it, is not 1, 2 or 3, and answers to the first line that is:
    Binance for 1, Kraken for 2, both with Binance first for 3, leaving the
    lines after it; when no line is a key the input runs out. *)
Theorem exchange_menu_takes_first_key (stdin : list string) :
  match get_exchange_choice stdin with
  | Some (exchanges, rest) =>
      exists skipped line,
        stdin = skipped ++ line :: rest
        /\ Forall (fun l => exchange_key l = false) skipped
        /\ ((PyText.strip line = "1" /\ exchanges = ["binance"])
            \/ (PyText.strip line = "2" /\ exchanges = ["kraken"])
            \/ (PyText.strip line = "3" /\ exchanges = ["binance"; "kraken"]))
  | None => Forall (fun l => exchange_key l = false) stdin
  end.
Proof.
  induction stdin as [|line stdin IH]; simpl; [constructor|].
  destruct (String.eqb (PyText.strip line) "1") eqn:E1.
  { exists [], line. apply String.eqb_eq in E1. repeat split; auto. }
  destruct (String.eqb (PyText.strip line) "2") eqn:E2.
  { exists [], line. apply String.eqb_eq in E2. repeat split; auto. }
  destruct (String.eqb (PyText.strip line) "3") eqn:E3.
  { exists [], line. apply String.eqb_eq in E3. repeat split; auto. }
  assert (Hkey : exchange_key line = false)
    by (unfold exchange_key; now rewrite E1, E2, E3).
  destruct (get_exchange_choice stdin) as [[exchanges rest]|].
  - destruct IH as (skipped & l & -> & Hsk & Hl).
    exists (line :: skipped), l. repeat split; auto.
  - now constructor.
Qed.

(** ** The fetch phase of [main] *)

Lemma get_exchange_choice_values (stdin : list string) exchanges rest :
  get_exchange_choice stdin = Some (exchanges, rest) ->
  exchanges = ["binance"] \/ exchanges = ["kraken"]
  \/ exchanges = ["binance"; "kraken"].
Proof.
  induction stdin as [|line stdin IH]; simpl; [discriminate|].
  destruct (String.eqb (PyText.strip line) "1"); [intros [= <- _]; auto|].
  destruct (String.eqb (PyText.strip line) "2"); [intros [= <- _]; auto|].
  destruct (String.eqb (PyText.strip line) "3"); [intros [= <- _]; auto|].
  exact IH.
Qed.

Lemma binance_result_name quote_assets reply r :
  BinanceFetcher.fetch_pairs quote_assets reply = Some r ->
  fr_exchange r = "Binance".
Proof.
  intros H. apply binance_fetch_some in H as (syms & new & _ & _ & ->).
  reflexivity.
Qed.

Lemma kraken_result_name quote_assets reply r :
  KrakenFetcher.fetch_pairs quote_assets reply = Some r ->
  fr_exchange r = "Kraken".
Proof.
  intros H. apply kraken_fetch_some in H as (entries & _ & ->). reflexivity.
Qed.

(** X7. Whatever the exchange menu returned, [main] makes one fetch per
    chosen exchange, Binance before Kraken: its list of results is Binance's
    own return for key 1, Kraken's own return for key 2, and Binance's return
    followed by Kraken's for key 3, each for the request and for the answer
    of its own exchange. A result that is there carries the name of the
    exchange it came from, and [main] reports failure exactly when every
    fetch it made returned [None]. *)
Theorem main_fetches_each_chosen_exchange
    (stdin exchanges rest quote_assets : list string)
    (binance_reply : api_reply BinanceFetcher.exchange_info)
    (kraken_reply : api_reply KrakenFetcher.asset_pairs) :
  get_exchange_choice stdin = Some (exchanges, rest) ->
  ((exchanges = ["binance"]
    /\ fetch_all exchanges quote_assets binance_reply kraken_reply
       = [BinanceFetcher.fetch_pairs quote_assets binance_reply])
   \/ (exchanges = ["kraken"]
       /\ fetch_all exchanges quote_assets binance_reply kraken_reply
          = [KrakenFetcher.fetch_pairs quote_assets kraken_reply])
   \/ (exchanges = ["binance"; "kraken"]
       /\ fetch_all exchanges quote_assets binance_reply kraken_reply
          = [BinanceFetcher.fetch_pairs quote_assets binance_reply;
             KrakenFetcher.fetch_pairs quote_assets kraken_reply]))
  /\ length (fetch_all exchanges quote_assets binance_reply kraken_reply)
     = length exchanges
  /\ (forall r,
        In (Some r) (fetch_all exchanges quote_assets binance_reply kraken_reply) ->
        (In "binance" exchanges
         /\ BinanceFetcher.fetch_pairs quote_assets binance_reply = Some r
         /\ fr_exchange r = "Binance")
        \/ (In "kraken" exchanges
            /\ KrakenFetcher.fetch_pairs quote_assets kraken_reply = Some r
            /\ fr_exchange r = "Kraken"))
  /\ (any_result (fetch_all exchanges quote_assets binance_reply kraken_reply)
      = false
      <-> (In "binance" exchanges ->
           BinanceFetcher.fetch_pairs quote_assets binance_reply = None)
          /\ (In "kraken" exchanges ->
              KrakenFetcher.fetch_pairs quote_assets kraken_reply = None)).
Proof.
  intros H. apply get_exchange_choice_values in H.
  assert (Hb : forall o : option FetchResult,
             (match o with Some _ => true | None => false end) = false
             <-> o = None) by (intros [r|]; split; congruence).
  destruct H as [->|[->| ->]]; unfold fetch_all, any_result; simpl;
    (split; [auto|]); (split; [reflexivity|]); split.
  - intros r [H|[]]. left.
    pose proof (binance_result_name _ _ _ H). auto.
  - rewrite orb_false_r, Hb. split.
    + intros ->. split; [reflexivity|].
      intros H. repeat destruct H as [H|H]; try discriminate H; contradiction.
    + intros [H _]. apply H. now left.
  - intros r [H|[]]. right.
    pose proof (kraken_result_name _ _ _ H). auto.
  - rewrite orb_false_r, Hb. split.
    + intros ->. split; [|reflexivity].
      intros H. repeat destruct H as [H|H]; try discriminate H; contradiction.
    + intros [_ H]. apply H. now left.
  - intros r [H|[H|[]]].
    + left. pose proof (binance_result_name _ _ _ H). auto.
    + right. pose proof (kraken_result_name _ _ _ H). auto.
  - rewrite orb_false_r, orb_false_iff, !Hb. split.
    + intros [-> ->]. split; reflexivity.
    + intros [H1 H2]. split; [apply H1; now left | apply H2; right; now left].
Qed.

Lemma main_fetches_each_chosen_exchange_witness :
  (exists rk,
     fetch_all ["binance"; "kraken"] ["USD"] RequestFailed
       (kraken_listing sample_kraken_entries)
     = [None; Some rk]
     /\ fr_exchange rk = "Kraken")
  /\ any_result (fetch_all ["kraken"] ["USD"] RequestFailed BadStatus) = false.
Proof.
  split.
  - destruct (main_fetches_each_chosen_exchange
                ["x"; " 3 "; "1"] ["binance"; "kraken"] ["1"] ["USD"]
                RequestFailed (kraken_listing sample_kraken_entries) eq_refl)
      as (Hlist & _ & Hname & _).
    destruct (kraken_fetch_total ["USD"] sample_kraken_entries) as [rk Hk].
    exists rk.
    destruct Hlist as [[Hx _]|[[Hx _]|[_ Hlist]]]; try discriminate Hx.
    rewrite Hlist, Hk. split; [reflexivity|].
    destruct (Hname rk) as [(_ & Hb & _)|(_ & _ & Hn)].
    + rewrite Hlist, Hk. right. now left.
    + discriminate Hb.
    + exact Hn.
  - destruct (main_fetches_each_chosen_exchange
                ["2"] ["kraken"] [] ["USD"] RequestFailed BadStatus eq_refl)
      as (_ & _ & _ & Hany).
    apply Hany. split; [|reflexivity].
    intros H. repeat destruct H as [H|H]; try discriminate H; contradiction.
Defined.

(** ** The quote-asset menu *)

Lemma preset_codes_clean :
  Forall clean_code ["USD"; "USDT"; "USDC"; "EUR"; "GBP"].
Proof.
  repeat constructor; try discriminate; simpl; lia.
Qed.

(** X8. For lines of ASCII text, whatever is typed, the quote-asset menu
    returns a request that is not empty and whose codes are not empty, have
    no blank at either end, contain no comma, are unchanged by [upper] and
    are ASCII; this holds for the presets and for every custom selection. *)
Theorem asset_menu_returns_clean_codes (stdin assets rest : list string) :
  Forall PyText.ascii_only stdin ->
  get_asset_choice stdin = Some (assets, rest) ->
  assets <> [] /\ Forall clean_code assets.
Proof.
  assert (Hp : forall l, incl l ["USD"; "USDT"; "USDC"; "EUR"; "GBP"] ->
                         Forall clean_code l).
  { intros l Hl. apply List.Forall_forall. intros a Ha.
    pose proof preset_codes_clean as H. rewrite List.Forall_forall in H.
    apply H, Hl, Ha. }
  assert (G : forall n stdin,
             length stdin <= n ->
             Forall PyText.ascii_only stdin ->
             get_asset_choice stdin = Some (assets, rest) ->
             assets <> [] /\ Forall clean_code assets).
  { clear stdin. induction n as [|n IH]; intros stdin Hn Hascii.
    - destruct stdin; [discriminate | simpl in Hn; lia].
    - destruct stdin as [|line stdin]; [discriminate|]. simpl in Hn.
      apply Forall_cons in Hascii as [_ Hascii].
      cbn [get_asset_choice].
      destruct (String.eqb (PyText.strip line) "1");
        [intros [= <- _]; split; [discriminate | apply Hp; intros x; simpl; tauto]|].
      destruct (String.eqb (PyText.strip line) "2");
        [intros [= <- _]; split; [discriminate | apply Hp; intros x; simpl; tauto]|].
      destruct (String.eqb (PyText.strip line) "3");
        [intros [= <- _]; split; [discriminate | apply Hp; intros x; simpl; tauto]|].
      destruct (String.eqb (PyText.strip line) "4");
        [intros [= <- _]; split; [discriminate | apply Hp; intros x; simpl; tauto]|].
      destruct (String.eqb (PyText.strip line) "5");
        [intros [= <- _]; split; [discriminate | apply Hp; intros x; simpl; tauto]|].
      destruct (String.eqb (PyText.strip line) "6");
        [intros [= <- _]; split; [discriminate | apply Hp; intros x; simpl; tauto]|].
      destruct (String.eqb (PyText.strip line) "7").
      + destruct stdin as [|custom stdin]; [discriminate|].
        apply Forall_cons in Hascii as [Hcustom Hascii].
        pose proof (parse_custom_clean custom Hcustom) as Hc.
        destruct (parse_custom custom) as [|a l].
        * apply IH; [simpl in Hn; lia | exact Hascii].
        * intros [= <- _]. split; [discriminate | exact Hc].
      + apply IH; [lia | exact Hascii]. }
  apply (G (length stdin)). lia.
Qed.

Lemma asset_menu_returns_clean_codes_witness :
  get_asset_choice ["9"; "7"; " , "; " 7"; "usdt, eur ,,dai"; "y"]
  = Some (["USDT"; "EUR"; "DAI"], ["y"])
  /\ Forall clean_code ["USDT"; "EUR"; "DAI"].
Proof.
  split; [reflexivity|].
  apply (asset_menu_returns_clean_codes
           ["9"; "7"; " , "; " 7"; "usdt, eur ,,dai"; "y"] _ ["y"]);
    [|reflexivity].
  repeat constructor; simpl; lia.
Defined.

(** ** Typing a custom selection back *)

Lemma lstrip_length (s : string) :
  String.length (PyText.lstrip s) <= String.length s.
Proof.
  induction s as [|c t IH]; simpl; [lia|].
  destruct (PyText.is_space c); simpl; lia.
Qed.

Lemma rstrip_length (s : string) :
  String.length (PyText.rstrip s) <= String.length s.
Proof.
  induction s as [|c t IH]; simpl; [lia|].
  destruct (PyText.rstrip t); [destruct (PyText.is_space c)|]; simpl in *; lia.
Qed.

Lemma lstrip_fixed_head (c : ascii) (t : string) :
  PyText.lstrip (String c t) = String c t -> PyText.is_space c = false.
Proof.
  simpl. destruct (PyText.is_space c); [|reflexivity].
  intros H. pose proof (lstrip_length t) as Hl. rewrite H in Hl. simpl in Hl. lia.
Qed.

Lemma strip_fixed (a : string) :
  PyText.strip a = a -> PyText.lstrip a = a /\ PyText.rstrip a = a.
Proof.
  unfold PyText.strip. intros H.
  assert (Hl : PyText.lstrip a = a).
  { destruct a as [|c t]; [reflexivity|]. simpl in *.
    destruct (PyText.is_space c); [|reflexivity].
    pose proof (rstrip_length (PyText.lstrip t)) as H1.
    pose proof (lstrip_length t) as H2. rewrite H in H1. simpl in H1. lia. }
  split; [exact Hl|]. now rewrite Hl in H.
Qed.

Lemma lstrip_app (a x : string) :
  a <> "" -> PyText.lstrip a = a -> PyText.lstrip (a +:+ x) = a +:+ x.
Proof.
  destruct a as [|c t]; [congruence|]. intros _ H.
  apply lstrip_fixed_head in H. simpl. now rewrite H.
Qed.

Lemma string_app_nonempty (x y : string) : y <> "" -> x +:+ y <> "".
Proof. destruct x; simpl; [auto | discriminate]. Qed.

Lemma rstrip_app (x y : string) :
  y <> "" -> PyText.rstrip y = y -> PyText.rstrip (x +:+ y) = x +:+ y.
Proof.
  intros Hy H. induction x as [|c x IH]; [exact H|].
  change (String c x +:+ y) with (String c (x +:+ y)).
  cbn [PyText.rstrip]. rewrite IH.
  destruct (x +:+ y) eqn:E; [|reflexivity].
  now apply string_app_nonempty in E.
Qed.

Lemma string_app_assoc (x y z : string) : x +:+ y +:+ z = (x +:+ y) +:+ z.
Proof.
  induction x as [|c x IH]; [reflexivity|].
  change (String c (x +:+ y +:+ z) = String c ((x +:+ y) +:+ z)).
  now rewrite IH.
Qed.

Lemma join_cons (sep a b : string) (l : list string) :
  PyText.join sep (a :: b :: l) = a +:+ sep +:+ PyText.join sep (b :: l).
Proof. reflexivity. Qed.

Lemma join_nonempty (sep a : string) (l : list string) :
  a <> "" -> PyText.join sep (a :: l) <> "".
Proof.
  intros Ha. destruct l as [|b l]; [exact Ha|]. rewrite join_cons.
  destruct a; [congruence | discriminate].
Qed.

Lemma strip_join (codes : list string) :
  Forall clean_code codes -> PyText.strip (PyText.join "," codes) = PyText.join "," codes.
Proof.
  intros Hall. destruct codes as [|a l]; [reflexivity|].
  assert (Hr : PyText.rstrip (PyText.join "," (a :: l)) = PyText.join "," (a :: l)).
  { revert a Hall. induction l as [|b l IH]; intros a Hall.
    - apply Forall_cons in Hall as [(_ & Hs & _) _]. now apply strip_fixed in Hs.
    - apply Forall_cons in Hall as [_ Hall]. rewrite join_cons.
      pose proof Hall as Hall'. apply Forall_cons in Hall' as [(Hb & _) _].
      rewrite string_app_assoc.
      apply rstrip_app; [now apply join_nonempty | now apply IH]. }
  unfold PyText.strip.
  apply Forall_cons in Hall as [(Ha & Hs & _) _]. apply strip_fixed in Hs as [Hl _].
  assert (Hlj : PyText.lstrip (PyText.join "," (a :: l)) = PyText.join "," (a :: l)).
  { destruct l as [|b l]; [exact Hl|]. rewrite join_cons. now apply lstrip_app. }
  now rewrite Hlj.
Qed.

Lemma all_chars_app (P : ascii -> bool) (a b : string) :
  all_chars P (a +:+ b) = all_chars P a && all_chars P b.
Proof.
  induction a as [|c a IH]; [reflexivity|].
  change (String c a +:+ b) with (String c (a +:+ b)).
  cbn [all_chars]. now rewrite IH, andb_assoc.
Qed.

Lemma all_chars_join (P : ascii -> bool) (sep : string) (codes : list string) :
  all_chars P sep = true ->
  Forall (fun a => all_chars P a = true) codes ->
  all_chars P (PyText.join sep codes) = true.
Proof.
  intros Hsep Hall. induction Hall as [|a l Ha Hl IH]; [reflexivity|].
  destruct l as [|b l]; [exact Ha|].
  rewrite join_cons, !all_chars_app, Ha, Hsep. exact IH.
Qed.

Lemma split_plain (sep : ascii) (a : string) :
  PyText.has_char sep a = false -> PyText.split sep a = [a].
Proof.
  induction a as [|c a IH]; simpl; [reflexivity|].
  intros H. apply orb_false_iff in H as [Hc Ha]. now rewrite Hc, IH.
Qed.

Lemma split_app_sep (sep : ascii) (a t : string) :
  PyText.has_char sep a = false ->
  PyText.split sep (a +:+ String sep t) = a :: PyText.split sep t.
Proof.
  induction a as [|c a IH]; intros H.
  - change ("" +:+ String sep t) with (String sep t). simpl.
    now rewrite Ascii.eqb_refl.
  - change (String c a +:+ String sep t) with (String c (a +:+ String sep t)).
    simpl in H. apply orb_false_iff in H as [Hc Ha].
    cbn [PyText.split]. now rewrite Hc, IH.
Qed.

Lemma split_join (codes : list string) :
  codes <> [] ->
  Forall (fun a => PyText.has_char "," a = false) codes ->
  PyText.split "," (PyText.join "," codes) = codes.
Proof.
  intros Hne Hall. induction Hall as [|a l Ha Hl IH]; [congruence|].
  destruct l as [|b l]; [now apply split_plain|].
  rewrite join_cons.
  change ("," +:+ PyText.join "," (b :: l))
    with (String "," (PyText.join "," (b :: l))).
  rewrite split_app_sep by exact Ha. f_equal. apply IH. discriminate.
Qed.

Lemma get_asset_choice_custom (custom : string) (rest : list string) :
  get_asset_choice ("7" :: custom :: rest)
  = match parse_custom custom with
    | [] => get_asset_choice rest
    | assets => Some (assets, rest)
    end.
Proof. reflexivity. Qed.

(** X9. A custom selection typed as clean codes joined by commas comes back
    as those very codes, in order, with the lines after it left to read:
    choosing 7 and typing [",".join(codes)] returns [codes] for every
    non-empty list of ASCII codes that are not empty, have no blank at either
    end and no comma, and that [upper] leaves unchanged. *)
Theorem custom_selection_round_trip (codes rest : list string) :
  codes <> [] ->
  Forall clean_code codes ->
  get_asset_choice ("7" :: PyText.join "," codes :: rest) = Some (codes, rest).
Proof.
  intros Hne Hall. rewrite get_asset_choice_custom.
  assert (Hp : parse_custom (PyText.join "," codes) = codes).
  { unfold parse_custom. rewrite strip_join by exact Hall.
    assert (Hup : PyStr.upper (PyText.join "," codes) = PyText.join "," codes).
    { apply upper_fixed_iff, all_chars_join; [reflexivity|].
      eapply List.Forall_impl; [|exact Hall].
      intros a (_ & _ & _ & Hu & _). now apply upper_fixed_iff. }
    rewrite Hup, split_join; [|exact Hne|].
    - clear Hne Hup. induction Hall as [|a l (Ha & Hs & _) Hl IH]; [reflexivity|].
      cbn [List.filter]. rewrite Hs.
      apply truthy_nonempty in Ha. rewrite Ha. cbn [map]. now rewrite Hs, IH.
    - eapply List.Forall_impl; [|exact Hall].
      intros a (_ & _ & Hc & _). exact Hc. }
  rewrite Hp. destruct codes; [congruence | reflexivity].
Qed.

Lemma custom_selection_round_trip_witness :
  get_asset_choice ["7"; "USDT,EUR,DAI"; "y"] = Some (["USDT"; "EUR"; "DAI"], ["y"]).
Proof.
  apply (custom_selection_round_trip ["USDT"; "EUR"; "DAI"] ["y"]).
  - discriminate.
  - repeat constructor; try discriminate; simpl; lia.
Defined.

(** * Further properties of [display_results] *)

(** ** The rows of the detailed list *)

Lemma firstn_plus_skipn {A : Type} (a b : nat) (l : list A) :
  firstn (a + b) l = firstn a l ++ firstn b (skipn a l).
Proof.
  revert l. induction a as [|a IH]; intros l; [reflexivity|].
  destruct l as [|x l]; simpl; [now rewrite firstn_nil | now rewrite IH].
Qed.

Lemma slice_row {A : Type} (i c : nat) (l : list A) :
  slice i (i + c) l = firstn c (skipn i l).
Proof. unfold slice. f_equal. lia. Qed.

Lemma rows_concat (c n : nat) (symbols : list string) :
  concat (map (fun i => slice i (i + c) symbols)
              (map (fun k => k * c) (seq 0 n)))
  = firstn (n * c) symbols.
Proof.
  induction n as [|n IH]; [reflexivity|].
  rewrite seq_S, !map_app, concat_app, IH. simpl.
  rewrite app_nil_r, slice_row. rewrite (Nat.add_comm c (n * c)).
  symmetry. apply firstn_plus_skipn.
Qed.

Lemma row_count_covers (c len : nat) :
  0 < c -> len <= ((len + c - 1) / c) * c.
Proof.
  intros Hc. pose proof (Nat.mul_succ_div_gt (len + c - 1) c) as H. nia.
Qed.

Lemma row_count_tight (c len k : nat) :
  0 < c -> k < (len + c - 1) / c -> k * c < len.
Proof.
  intros Hc Hk. pose proof (Nat.Div0.mul_div_le (len + c - 1) c) as H. nia.
Qed.

Lemma row_length (c k : nat) (symbols : list string) :
  length (slice (k * c) (k * c + c) symbols) = Nat.min c (length symbols - k * c).
Proof. now rewrite slice_row, length_firstn, length_skipn. Qed.

(** X10. The detailed list cuts the sorted symbols of a quote asset into
    rows without losing or reordering any: the rows put end to end are the
    symbols; there are as many rows as the symbols need at the given number
    of columns (four in the source); no row is empty or longer than that,
    and every row but the last is full. Under every code it shows, the
    detailed list has the sorted symbols of that code's pairs, all of them. *)
Theorem detailed_rows_lose_nothing (columns : nat) (symbols : list string) :
  0 < columns ->
  concat (symbol_rows columns symbols) = symbols
  /\ length (symbol_rows columns symbols)
     = (length symbols + columns - 1) / columns
  /\ Forall (fun row => 1 <= length row <= columns) (symbol_rows columns symbols)
  /\ (forall full last,
        symbol_rows columns symbols = full ++ [last] ->
        Forall (fun row => length row = columns) full)
  /\ (forall quote_assets r,
        Forall (fun section =>
                  PyDict.get_default (fst section) [] (results r) <> []
                  /\ concat (snd section)
                     = map symbol
                         (sorted_by_symbol
                            (PyDict.get_default (fst section) [] (results r))))
               (detailed_list quote_assets r)).
Proof.
  intros Hc.
  assert (Hconcat : forall l : list string, concat (symbol_rows 4 l) = l).
  { intros l. unfold symbol_rows, range_step. rewrite rows_concat.
    apply firstn_all2. apply row_count_covers. lia. }
  assert (Hrow : forall k, k < (length symbols + columns - 1) / columns ->
                 1 <= length (slice (k * columns) (k * columns + columns) symbols)
                 <= columns).
  { intros k Hk. rewrite row_length.
    pose proof (row_count_tight columns (length symbols) k Hc Hk). lia. }
  repeat apply conj.
  - unfold symbol_rows, range_step. rewrite rows_concat.
    apply firstn_all2. now apply row_count_covers.
  - unfold symbol_rows, range_step. now rewrite !length_map, length_seq.
  - unfold symbol_rows, range_step. rewrite map_map.
    apply List.Forall_forall. intros row Hin.
    apply in_map_iff in Hin as (k & <- & Hk). apply in_seq in Hk.
    apply Hrow. lia.
  - intros full last Hsplit. unfold symbol_rows, range_step in Hsplit.
    rewrite map_map in Hsplit.
    destruct ((length symbols + columns - 1) / columns) as [|m] eqn:En;
      [now destruct full|].
    rewrite seq_S, map_app in Hsplit. simpl in Hsplit.
    apply app_inj_tail in Hsplit as [<- _].
    apply List.Forall_forall. intros row Hin.
    apply in_map_iff in Hin as (k & <- & Hk). apply in_seq in Hk.
    rewrite row_length.
    assert (Hn : S k * columns < length symbols).
    { apply row_count_tight; [exact Hc|]. rewrite En. lia. }
    simpl in Hn. lia.
  - intros quote_assets r. unfold detailed_list.
    induction quote_assets as [|a l IH]; simpl; [constructor|].
    destruct (PyDict.get_default a [] (results r)) as [|p ps] eqn:E; [exact IH|].
    simpl. constructor; [|exact IH]. simpl. rewrite E.
    split; [discriminate | apply Hconcat].
Qed.

Lemma detailed_rows_lose_nothing_witness :
  concat (symbol_rows 4 ["A"; "B"; "C"; "D"; "E"; "F"; "G"; "H"; "I"])
  = ["A"; "B"; "C"; "D"; "E"; "F"; "G"; "H"; "I"]
  /\ length (symbol_rows 4 ["A"; "B"; "C"; "D"; "E"; "F"; "G"; "H"; "I"]) = 3.
Proof.
  destruct (detailed_rows_lose_nothing
              4 ["A"; "B"; "C"; "D"; "E"; "F"; "G"; "H"; "I"])
    as (H1 & H2 & _); [lia|].
  split; [exact H1 | exact H2].
Defined.

(** ** The comparison table *)













(** ** The summary *)

Lemma grand_total_from (all_results : list (option FetchResult)) (acc : nat) :
  fold_left (fun acc r =>
               match r with
               | Some r => acc + total r
               | None => acc
               end)
            all_results acc
  = acc + list_sum (map (fun o => match o with
                                  | Some r => total r
                                  | None => 0
                                  end) all_results).
Proof.
  revert acc. induction all_results as [|[r|] l IH]; intros acc; simpl.
  - lia.
  - rewrite IH. lia.
  - apply IH.
Qed.

Lemma positive_counts_sum (l : list (string * nat)) :
  list_sum (map snd (List.filter (fun line => (0 <? snd line)%nat) l))
  = list_sum (map snd l).
Proof.
  induction l as [|[a n] l IH]; simpl; [reflexivity|].
  destruct n as [|n]; simpl; [exact IH | now rewrite IH].
Qed.

(** X12. For results of fetches under the request, the grand total of the
    summary is the number of pairs in the flat lists of the results that
    are there, a failed fetch adding nothing; and when the requested codes
    are distinct the per-asset lines printed for an exchange, where counts
    of 0 are left out, add up to the total printed for it. *)
Theorem summary_counts_add_up
    (quote_assets : list string) (all_results : list (option FetchResult)) :
  Forall (fun o => match o with
                   | Some r => fetched quote_assets r
                   | None => True
                   end) all_results ->
  grand_total all_results
  = length (flat_map (fun o => match o with
                               | Some r => all_pairs r
                               | None => []
                               end) all_results)
  /\ (NoDup quote_assets ->
      Forall (fun o => match o with
                       | Some r =>
                           list_sum (map snd (asset_counts quote_assets r))
                           = total r
                       | None => True
                       end) all_results).
Proof.
  intros Hall. split.
  - unfold grand_total. rewrite grand_total_from. simpl.
    induction Hall as [|[r|] l Hr Hl IH]; simpl; [reflexivity| |exact IH].
    rewrite length_app, IH. f_equal.
    apply fetched_result_of in Hr as (name & ps & -> & _). reflexivity.
  - intros Hnd. eapply List.Forall_impl; [|exact Hall].
    intros [r|]; [|auto]. intros Hr.
    apply fetched_result_of in Hr as (name & ps & -> & Hq).
    unfold asset_counts. rewrite positive_counts_sum, map_map. simpl.
    rewrite first_occurrences_NoDup_id by exact Hnd.
    rewrite <- bucket_total_by_code.
    apply bucket_total_grouped; assumption.
Qed.

Lemma summary_counts_add_up_witness :
  exists rk,
    KrakenFetcher.fetch_pairs ["USDT"; "USD"; "EUR"] (kraken_listing sample_kraken_entries)
    = Some rk
    /\ asset_counts ["USDT"; "USD"; "EUR"] rk = [("USDT", 1); ("USD", 2)]
    /\ grand_total [None; Some rk] = 3.
Proof.
  destruct (kraken_fetch_total ["USDT"; "USD"; "EUR"] sample_kraken_entries)
    as [rk Hk].
  exists rk. split; [exact Hk|]. split.
  - vm_compute in Hk. injection Hk as <-. reflexivity.
  - assert (Hall : Forall (fun o => match o with
                                     | Some r => fetched ["USDT"; "USD"; "EUR"] r
                                     | None => True
                                     end) [None; Some rk]).
    { constructor; [exact I|]. constructor; [|constructor]. right. eauto. }
    rewrite (proj1 (summary_counts_add_up _ _ Hall)).
    vm_compute in Hk. injection Hk as <-. reflexivity.
Defined.

(** * Further properties of [save_results] *)

(** ** The plain-text list *)

Lemma two_blanks_prefix (s : string) : String.prefix "  " ("  " +:+ s) = true.
Proof.
  change ("  " +:+ s) with (String " " (String " " s)).
  destruct s; reflexivity.
Qed.

Lemma filter_symbol_lines (ps : list TradingPair) :
  List.filter (String.prefix "  ")
              (map (fun pair => "  " +:+ symbol pair +:+ newline) ps)
  = map (fun pair => "  " +:+ symbol pair +:+ newline) ps.
Proof.
  induction ps as [|p ps IH]; [reflexivity|].
  cbn [map List.filter]. now rewrite two_blanks_prefix, IH.
Qed.

Lemma txt_sections_symbol_lines (quote_assets : list string) (r : FetchResult) :
  List.filter (String.prefix "  ")
    (flat_map
       (fun asset =>
          match PyDict.get_default asset [] (results r) with
          | [] => []
          | pairs =>
              (newline +:+ asset +:+ " pairs:" +:+ newline)
              :: map (fun pair => "  " +:+ symbol pair +:+ newline)
                     (sorted_by_symbol pairs)
          end)
       quote_assets)
  = map (fun pair => "  " +:+ symbol pair +:+ newline) (tv_pairs quote_assets r).
Proof.
  unfold tv_pairs. induction quote_assets as [|a l IH]; [reflexivity|].
  cbn [flat_map]. rewrite List.filter_app, map_app, IH. f_equal.
  destruct (PyDict.get_default a [] (results r)) as [|p ps]; [reflexivity|].
  cbn [List.filter].
  change (String.prefix "  " (newline +:+ a +:+ " pairs:" +:+ newline)) with false.
  cbv iota. apply filter_symbol_lines.
Qed.

(** X13. The lines of the plain-text list that start with two blanks are,
    exchange after exchange, the symbols of the TradingView watchlist of that
    exchange in the same order, each on a line of its own; every other line
    is a heading. For the result of a fetch under distinct codes the list
    for that exchange carries the heading with its total, and as many symbol
    lines as that total. *)
Theorem txt_list_names_the_watchlist_symbols
    (timestamp : string) (quote_assets : list string) :
  (forall all_results,
     List.filter (String.prefix "  ")
                 (txt_list_lines timestamp quote_assets all_results)
     = flat_map (fun o =>
                   match o with
                   | Some r =>
                       map (fun pair => "  " +:+ symbol pair +:+ newline)
                           (tv_pairs quote_assets r)
                   | None => []
                   end)
                all_results)
  /\ (forall r,
        fetched quote_assets r -> NoDup quote_assets ->
        In (newline +:+ fr_exchange r +:+ " (" +:+ pretty (total r)
              +:+ " pairs)" +:+ newline)
           (txt_list_lines timestamp quote_assets [Some r])
        /\ length (List.filter (String.prefix "  ")
                               (txt_list_lines timestamp quote_assets [Some r]))
           = total r).
Proof.
  assert (G : forall all_results,
             List.filter (String.prefix "  ")
                         (txt_list_lines timestamp quote_assets all_results)
             = flat_map (fun o =>
                           match o with
                           | Some r =>
                               map (fun pair => "  " +:+ symbol pair +:+ newline)
                                   (tv_pairs quote_assets r)
                           | None => []
                           end)
                        all_results).
  { intros all_results. unfold txt_list_lines.
    rewrite List.filter_app.
    match goal with
    | |- List.filter _ ?hd ++ _ = _ =>
        assert (Hhd : List.filter (String.prefix "  ") hd = []) by reflexivity
    end.
    rewrite Hhd. cbn [app]. clear Hhd.
    induction all_results as [|[r|] l IH]; [reflexivity| |exact IH].
    cbn [flat_map]. rewrite List.filter_app, IH. f_equal.
    rewrite <- txt_sections_symbol_lines.
    cbn [app List.filter].
    change (String.prefix "  "
              (newline +:+ fr_exchange r +:+ " (" +:+ pretty (total r)
                 +:+ " pairs)" +:+ newline)) with false.
    reflexivity. }
  split; [exact G|].
  intros r Hf Hnd. split.
  - unfold txt_list_lines. apply in_or_app. right. simpl. now left.
  - rewrite G. simpl. rewrite app_nil_r, length_map.
    apply fetched_result_of in Hf as (name & ps & -> & Hq).
    rewrite (Permutation_length (tv_pairs_perm name quote_assets ps Hnd Hq)).
    reflexivity.
Qed.

Lemma txt_list_names_the_watchlist_symbols_witness :
  exists rk,
    KrakenFetcher.fetch_pairs ["USDT"; "USD"] (kraken_listing sample_kraken_entries)
    = Some rk
    /\ List.filter (String.prefix "  ")
                   (txt_list_lines "20240101_000000" ["USDT"; "USD"] [Some rk])
       = ["  ETHUSDT" +:+ newline; "  DOTUSD" +:+ newline; "  XBTUSD" +:+ newline]
    /\ length (List.filter (String.prefix "  ")
                 (txt_list_lines "20240101_000000" ["USDT"; "USD"] [Some rk]))
       = total rk.
Proof.
  destruct (kraken_fetch_total ["USDT"; "USD"] sample_kraken_entries) as [rk Hk].
  exists rk. split; [exact Hk|]. split.
  - vm_compute in Hk. injection Hk as <-. vm_compute. reflexivity.
  - apply (proj2 (txt_list_names_the_watchlist_symbols
                    "20240101_000000" ["USDT"; "USD"])).
    + right. eauto.
    + apply (bool_decide_unpack (NoDup ["USDT"; "USD"])). vm_compute. exact I.
Defined.

(** ** The TradingView files when a fetch failed *)







(** ** The common-pairs screen *)

Lemma dict_set_keys_NoDup {V : Type} (k : string) (v : V) (d : PyDict.t V) :
  NoDup (PyDict.keys d) -> NoDup (PyDict.keys (PyDict.set k v d)).
Proof.
  unfold PyDict.keys. induction d as [|[k' v'] d IH]; simpl; intros Hnd.
  - apply NoDup_singleton.
  - destruct (String.eqb k k') eqn:E; simpl.
    + apply String.eqb_eq in E. now subst.
    + apply NoDup_cons in Hnd as [Hnotin Hnd]. apply NoDup_cons. split; [|auto].
      rewrite list_elem_of_In in *. intros Hin. apply Hnotin.
      apply String.eqb_neq in E. clear IH Hnd Hnotin.
      induction d as [|[k0 v0] d IHd]; simpl in *.
      * destruct Hin as [H|[]]. congruence.
      * destruct (String.eqb k k0) eqn:E0; simpl in Hin.
        -- apply String.eqb_eq in E0. subst k0. destruct Hin as [H|H]; [congruence|auto].
        -- destruct Hin as [H|H]; auto.
Qed.

Lemma dict_set_length {V : Type} (k : string) (v : V) (d : PyDict.t V) :
  length (PyDict.set k v d) <= S (length d).
Proof.
  induction d as [|[k' v'] d IH]; simpl; [lia|].
  destruct (String.eqb k k'); simpl; lia.
Qed.

Lemma exchanges_pairs_invariant (all_results : list (option FetchResult)) :
  NoDup (PyDict.keys (exchanges_pairs all_results))
  /\ length (exchanges_pairs all_results) <= length (omap id all_results).
Proof.
  unfold exchanges_pairs.
  assert (G : forall (l : list (option FetchResult)) (d : PyDict.t (gset string)),
             NoDup (PyDict.keys d) ->
             let d' := fold_left
                         (fun d r =>
                            match r with
                            | Some r => PyDict.set (fr_exchange r) (pairs_set_of r) d
                            | None => d
                            end) l d in
             NoDup (PyDict.keys d')
             /\ length d' <= length d + length (omap id l)).
  { induction l as [|[r|] l IH]; intros d Hnd; cbn [fold_left].
    - split; [exact Hnd | simpl; lia].
    - destruct (IH (PyDict.set (fr_exchange r) (pairs_set_of r) d)
                   (dict_set_keys_NoDup _ _ _ Hnd)) as [H1 H2].
      split; [exact H1|].
      pose proof (dict_set_length (fr_exchange r) (pairs_set_of r) d).
      change (omap id (Some r :: l)) with (r :: omap id l).
      change (length (r :: omap id l)) with (S (length (omap id l))). lia.
    - now apply IH. }
  destruct (G all_results [] (NoDup_nil_2 (A:=string))) as [H1 H2].
  split; [exact H1|].
  simpl in H2. exact H2.
Qed.

(** X15. The common-pairs screen is computed only when at least two results
    are there, under two different exchange names, the first result's name
    first. The pairs on both exchanges, those only on the first and those
    only on the second have nothing in common two by two, and together they
    are the pairs of either exchange; a pair is common exactly when both
    exchanges have it. *)
Theorem common_pairs_split_the_union
    (all_results : list (option FetchResult)) (rep : common_report) :
  common_pairs all_results = Some rep ->
  exists s0 s1,
    exchanges_pairs all_results
    = [(first_exchange rep, s0); (second_exchange rep, s1)]
    /\ first_exchange rep <> second_exchange rep
    /\ 2 <= length (omap id all_results)
    /\ common rep ## only_first rep
    /\ common rep ## only_second rep
    /\ only_first rep ## only_second rep
    /\ common rep ∪ only_first rep ∪ only_second rep = s0 ∪ s1
    /\ (forall x, x ∈ common rep <-> x ∈ s0 /\ x ∈ s1)
    /\ (forall x, x ∈ only_first rep <-> x ∈ s0 /\ x ∉ s1)
    /\ (forall x, x ∈ only_second rep <-> x ∈ s1 /\ x ∉ s0).
Proof.
  intros H. unfold common_pairs in H.
  destruct (1 <? length all_results)%nat; [|discriminate].
  pose proof (exchanges_pairs_invariant all_results) as [Hnd Hlen].
  unfold PyDict.items in H.
  destruct (exchanges_pairs all_results) as [|[e0 s0] [|[e1 s1] [|]]];
    try discriminate.
  injection H as <-. simpl in *. exists s0, s1.
  split; [reflexivity|]. split.
  { apply NoDup_cons in Hnd as [Hnotin _]. intros ->. apply Hnotin. now left. }
  split; [exact Hlen|].
  assert (Hc : forall x, x ∈ s0 ∩ s1 <-> x ∈ s0 /\ x ∈ s1)
    by (intros x; apply elem_of_intersection).
  assert (H1 : forall x, x ∈ s0 ∖ s1 <-> x ∈ s0 /\ x ∉ s1)
    by (intros x; apply elem_of_difference).
  assert (H2 : forall x, x ∈ s1 ∖ s0 <-> x ∈ s1 /\ x ∉ s0)
    by (intros x; apply elem_of_difference).
  split; [apply elem_of_disjoint; intros x; rewrite Hc, H1; tauto|].
  split; [apply elem_of_disjoint; intros x; rewrite Hc, H2; tauto|].
  split; [apply elem_of_disjoint; intros x; rewrite H1, H2; tauto|].
  split.
  { apply set_eq. intros x. rewrite !elem_of_union, Hc, H1, H2.
    destruct (decide (x ∈ s0)), (decide (x ∈ s1)); tauto. }
  split; [exact Hc|]. split; [exact H1 | exact H2].
Qed.

Lemma common_pairs_split_the_union_witness :
  exists rb rk rep,
    BinanceFetcher.fetch_pairs ["USDT"; "USD"] (binance_listing sample_binance_symbols)
    = Some rb
    /\ KrakenFetcher.fetch_pairs ["USDT"; "USD"] (kraken_listing sample_kraken_entries)
       = Some rk
    /\ common_pairs [Some rb; Some rk] = Some rep
    /\ first_exchange rep <> second_exchange rep
    /\ common rep ## only_first rep.
Proof.
  eexists _, _, _. split; [vm_compute; reflexivity|].
  split; [apply kraken_fetch_json|]. split; [reflexivity|].
  match goal with
  | |- first_exchange ?rep <> _ /\ _ =>
      destruct (common_pairs_split_the_union
                  [BinanceFetcher.fetch_pairs ["USDT"; "USD"]
                     (binance_listing sample_binance_symbols);
                   KrakenFetcher.fetch_pairs ["USDT"; "USD"]
                     (kraken_listing sample_kraken_entries)] rep)
        as (s0 & s1 & _ & Hne & _ & Hd & _); [reflexivity|]
  end.
  split; [exact Hne | exact Hd].
Defined.

(** ** The watchlist and the order of the listing *)

Lemma leb_true_trans (a b c : string) :
  String.leb a b = true -> String.leb b c = true -> String.leb a c = true.
Proof.
  intros H1 H2. apply Is_true_true.
  apply (transitivity (R := String.le) (y := b)); now apply Is_true_true.
Qed.

Lemma symbols_of_sorted (l : list TradingPair) :
  symbols_sorted l ->
  Sorted (fun a b => String.leb a b = true) (map symbol l).
Proof.
  unfold symbols_sorted. induction 1 as [|p l Hs IH Hhd]; simpl; constructor.
  - exact IH.
  - destruct Hhd; simpl; constructor. assumption.
Qed.

Lemma sorted_symbols_unique (b b' : list TradingPair) :
  Permutation b b' ->
  map symbol (sorted_by_symbol b) = map symbol (sorted_by_symbol b').
Proof.
  intros Hperm.
  apply (Sorted_unique (fun a c => String.leb a c = true)
           (Transitive0 := leb_true_trans)
           (AntiSymm0 := fun a c => String.leb_antisym a c)).
  - apply symbols_of_sorted, sorted_by_symbol_sorted.
  - apply symbols_of_sorted, sorted_by_symbol_sorted.
  - apply Permutation_map.
    now rewrite !sorted_by_symbol_perm.
Qed.

Lemma tv_lines_of_symbols (name : string) (l : list TradingPair) :
  map (tv_line name) l
  = map (fun s => name +:+ ":" +:+ s +:+ newline) (map symbol l).
Proof. now rewrite map_map. Qed.

(** X16. The TradingView watchlist of an exchange does not depend on the
    order in which the exchange listed its pairs: two results under the same
    exchange name whose lists under every requested code hold the same
    pairs, in whatever order, give the same lines. *)
Theorem watchlist_ignores_listing_order
    (quote_assets : list string) (r r' : FetchResult) :
  fr_exchange r = fr_exchange r' ->
  (forall asset,
     In asset quote_assets ->
     Permutation (PyDict.get_default asset [] (results r))
                 (PyDict.get_default asset [] (results r'))) ->
  tv_exchange_lines quote_assets r = tv_exchange_lines quote_assets r'.
Proof.
  intros Hname Hperm. unfold tv_exchange_lines. rewrite Hname.
  induction quote_assets as [|a l IH]; simpl; [reflexivity|].
  rewrite IH by (intros asset Hin; apply Hperm; now right).
  f_equal. rewrite !tv_lines_of_symbols. f_equal.
  apply sorted_symbols_unique, Hperm. now left.
Qed.

Lemma watchlist_ignores_listing_order_witness :
  exists r r',
    KrakenFetcher.fetch_pairs ["USD"] (kraken_listing sample_kraken_entries) = Some r
    /\ KrakenFetcher.fetch_pairs ["USD"] (kraken_listing (rev sample_kraken_entries))
       = Some r'
    /\ all_pairs r <> all_pairs r'
    /\ tv_exchange_lines ["USD"] r = tv_exchange_lines ["USD"] r'.
Proof.
  eexists _, _. split; [apply kraken_fetch_json|].
  split; [apply kraken_fetch_json|]. split; [discriminate|].
  apply watchlist_ignores_listing_order; [reflexivity|].
  intros asset [<-|[]]. vm_compute. apply perm_swap.
Defined.

(** ** The cells of a printed row *)

Lemma string_length_app (a b : string) :
  String.length (a +:+ b) = String.length a + String.length b.
Proof.
  induction a as [|c a IH]; [reflexivity|].
  change (String c a +:+ b) with (String c (a +:+ b)). simpl. now rewrite IH.
Qed.

Lemma blanks_length (n : nat) :
  String.length (String.concat "" (repeat " " n)) = n.
Proof.
  induction n as [|n IH]; [reflexivity|].
  destruct n as [|n]; [reflexivity|].
  change (repeat " " (S (S n))) with (" " :: " " :: repeat " " n).
  change (String.concat "" (" " :: " " :: repeat " " n))
    with (" " +:+ "" +:+ String.concat "" (" " :: repeat " " n)).
  rewrite !string_length_app.
  change (" " :: repeat " " n) with (repeat " " (S n)). rewrite IH. reflexivity.
Qed.

Lemma prefix_app (a b : string) : String.prefix a (a +:+ b) = true.
Proof.
  induction a as [|c a IH]; [now destruct b|].
  change (String c a +:+ b) with (String c (a +:+ b)). simpl.
  destruct (ascii_dec c c); [exact IH | congruence].
Qed.

Lemma format_row_length (row : list string) :
  Forall (fun s => String.length s <= 15) row ->
  String.length (format_row row) + 2 = 17 * length row \/ row = [].
Proof.
  intros Hall. induction Hall as [|s l Hs Hl IH]; [now right|]. left.
  assert (Hcell : String.length (PyText.ljust 15 s) = 15).
  { unfold PyText.ljust. rewrite string_length_app, blanks_length. lia. }
  unfold format_row in *. destruct l as [|s' l].
  - simpl. rewrite Hcell. reflexivity.
  - destruct IH as [IH|IH]; [|discriminate].
    cbn [map] in *. rewrite join_cons, !string_length_app, Hcell.
    change (String.length "  ") with 2. cbn [length] in *. lia.
Qed.

(** X17. A cell of the detailed list starts with its symbol, whole, and is
    padded with blanks to 15 characters: a longer symbol is not cut. A row
    of symbols of at most 15 characters is printed 15 characters per cell
    with two blanks between cells, so that the columns line up. *)
Theorem detailed_cells_line_up :
  (forall s,
     String.prefix s (PyText.ljust 15 s) = true
     /\ String.length (PyText.ljust 15 s) = Nat.max 15 (String.length s))
  /\ (forall row,
        row <> [] ->
        Forall (fun s => String.length s <= 15) row ->
        String.length (format_row row) = 17 * length row - 2).
Proof.
  split.
  - intros s. split; [apply prefix_app|].
    unfold PyText.ljust. rewrite string_length_app, blanks_length. lia.
  - intros row Hne Hall.
    destruct (format_row_length row Hall) as [H|H]; [lia | contradiction].
Qed.

Lemma detailed_cells_line_up_witness :
  String.length (format_row ["BTCUSDT"; "ETHUSDT"; "XBTUSD"]) = 49.
Proof.
  apply (proj2 detailed_cells_line_up ["BTCUSDT"; "ETHUSDT"; "XBTUSD"]).
  - discriminate.
  - repeat constructor; simpl; lia.
Defined.

(** ** A file that cannot be written *)





